(** * ParamTools: [paramtools/build_schema.py]

    A shallow embedding of the [SchemaBuilder] class: the per-parameter
    schema compilation of [build_schemas] and the dispatch of [load_params],
    with the Python objects they create modelled as data, the builder's
    attributes as an explicit state, and exceptions as a sum type. *)

From Stdlib Require Import List String ZArith Bool Ascii.
Import ListNotations.
Open Scope string_scope.
Open Scope list_scope.

Set Implicit Arguments.
#[local] Set Warnings "-register-all".

(** ** Python dictionaries

    A [dict] keeps its items in insertion order and holds every key once.
    Assignment [d[k] = v] replaces the value in place when [k] is present
    and appends the item otherwise. *)

Module Dict.

Definition dict (V : Type) : Type := list (string * V).

Definition keys {V} (d : dict V) : list string := map fst d.

Fixpoint get {V} (k : string) (d : dict V) : option V :=
  match d with
  | [] => None
  | (k', v) :: d' => if String.eqb k k' then Some v else get k d'
  end.

Fixpoint set {V} (k : string) (v : V) (d : dict V) : dict V :=
  match d with
  | [] => [(k, v)]
  | (k', v') :: d' =>
      if String.eqb k k' then (k, v) :: d' else (k', v') :: set k v d'
  end.

(** [{**d1, **d2}]: the items of [d2] are assigned into [d1] in order. *)
Definition update {V} (d1 d2 : dict V) : dict V :=
  fold_left (fun acc kv => set (fst kv) (snd kv) acc) d2 d1.

(** [{k: f(v) for k, v in d.items()}] *)
Definition comprehension {V W} (f : V -> W) (d : dict V) : dict W :=
  fold_left (fun acc kv => set (fst kv) (f (snd kv)) acc) d [].

(** The comprehension of a dictionary, item by item. *)
Definition mapped {V W} (f : V -> W) (d : dict V) : dict W :=
  map (fun kv => (fst kv, f (snd kv))) d.

Definition mem {V} (k : string) (d : dict V) : bool :=
  match get k d with Some _ => true | None => false end.

(** The invariant of a dictionary: no key twice. *)
Fixpoint unique (ks : list string) : bool :=
  match ks with
  | [] => true
  | k :: ks' => negb (existsb (String.eqb k) ks') && unique ks'
  end.

Definition wf {V} (d : dict V) : bool := unique (keys d).

(** Number of items stored under key [k]. *)
Definition count {V} (k : string) (d : dict V) : nat :=
  List.length (filter (String.eqb k) (keys d)).

End Dict.

Import Dict.

(** ** JSON documents

    The values [json.loads] and [utils.read_json] give, and the arguments
    [load_params] can be called with.  Numbers are kept to the integers. *)

Inductive json : Type :=
| JNull
| JBool (b : bool)
| JNum (n : Z)
| JStr (s : string)
| JList (xs : list json)
| JDict (items : dict json).

(** ** Schema objects

    A marshmallow field is either a typed leaf (with its validators) or a
    [fields.Nested] wrapper around a schema class or a schema instance.  A
    schema class is what [type(name, (base,), classattrs)] creates: the
    metaclass stores the inherited fields updated with [classattrs]. *)

Inductive semtype : Type := Numeric | Boolean | Text.

(** A validator is an enumerated set, a range with declared bounds, or a
    range whose bound is a sentinel: the value the cleaned baseline gives
    parameter [parameter] at the same label assignment. *)
Inductive validator : Type :=
| OneOf (choices : list json)
| Range (min max : option Z)
| AtLeast (parameter : string)
| AtMost (parameter : string).

Record schema_class_of (F : Type) : Type := SchemaClass {
  cls_name : string;
  cls_bases : list string;
  declared_fields : dict F
}.

Inductive nested_of (F : Type) : Type :=
| OfClass (cls : schema_class_of F)
| OfInstance (cls : schema_class_of F) (many : bool).

Inductive field : Type :=
| Typed (t : semtype) (validate : list validator)
| Nested (nested : nested_of field) (many : bool).

Abbreviation schema_class := (schema_class_of field).
Abbreviation nested_schema := (nested_of field).

Definition nested_class (n : nested_schema) : schema_class :=
  match n with OfClass c => c | OfInstance c _ => c end.

Definition nested_many (n : nested_schema) : bool :=
  match n with OfClass _ => false | OfInstance _ m => m end.

Definition type_ (name : string) (base : schema_class)
    (classattrs : dict field) : schema_class :=
  {| cls_name := name;
     cls_bases := cls_name base :: cls_bases base;
     declared_fields := update (declared_fields base) classattrs |}.

Definition Schema : schema_class :=
  {| cls_name := "Schema"; cls_bases := []; declared_fields := [] |}.

(** A schema instance: [cls(many=...)], with its mutable [context]. *)
Record schema : Type := SchemaInstance {
  schema_cls : schema_class;
  many : bool;
  context : dict json
}.

Definition instantiate (cls : schema_class) : schema :=
  {| schema_cls := cls; many := false; context := [] |}.

(** ** Loading a document through a schema

    [Schema.load] belongs to the field-validation library (marshmallow), which
    the source imports and sections 1 and 4 of the specification treat as
    a collaborator.  The module [Load] below follows sections 4.2 to 4.5
    and 7: a document is dispatched key by key to the declared fields; a
    key that names no field is reported; a field absent from the document
    is simply absent; every violation is collected, none stops the
    traversal, and the collected list is raised as one aggregate.  A
    sentinel bound is resolved in the cleaned baseline the schema holds
    as context: the value is held against the value of the named
    parameter in every baseline entry that matches the entry's labels
    (section 8, partial label assignment), an entry with no label for a
    dimension matching any label (section 4.5), and a reference that
    finds no such entry is a [ContextResolutionError]. *)

Inductive path_elem : Type := Key (k : string) | Index (i : nat).

Inductive violation_kind : Type :=
| UnknownName
| InvalidType (expected : semtype)
| NotAMapping
| NotASequence
| Rejected (by_ : validator)
| ContextResolutionError (parameter : string).

Record violation : Type := Violation {
  v_path : list path_elem;
  v_kind : violation_kind
}.

Definition under (p : path_elem) (v : violation) : violation :=
  {| v_path := p :: v_path v; v_kind := v_kind v |}.

(** The member of the aggregate that reports the top-level key [k] as
    naming no parameter. *)
Definition UnknownParameterError (k : string) : violation :=
  {| v_path := [Key k]; v_kind := UnknownName |}.

Module Load.

Definition is_digit (c : ascii) : bool :=
  let n := nat_of_ascii c in (48 <=? n)%nat && (n <=? 57)%nat.

Fixpoint digits (s : string) (acc : Z) : option Z :=
  match s with
  | EmptyString => Some acc
  | String c s' =>
      if is_digit c
      then digits s' (10 * acc + Z.of_nat (nat_of_ascii c - 48))%Z
      else None
  end.

Definition parse_int (s : string) : option Z :=
  match s with
  | EmptyString => None
  | String "-" (String _ _ as s') => option_map Z.opp (digits s' 0%Z)
  | _ => digits s 0%Z
  end.

(** The typed value a raw value stands for, when it has the field's type. *)
Definition convert (t : semtype) (v : json) : option json :=
  match t, v with
  | Numeric, JNum _ => Some v
  | Numeric, JStr s => option_map JNum (parse_int s)
  | Boolean, JBool _ => Some v
  | Text, JStr _ => Some v
  | _, _ => None
  end.

Definition scalar_eqb (a b : json) : bool :=
  match a, b with
  | JNull, JNull => true
  | JBool x, JBool y => Bool.eqb x y
  | JNum x, JNum y => Z.eqb x y
  | JStr x, JStr y => String.eqb x y
  | _, _ => false
  end.

Definition above (lo : option Z) (z : Z) : bool :=
  match lo with Some m => (m <=? z)%Z | None => true end.

Definition below (hi : option Z) (z : Z) : bool :=
  match hi with Some m => (z <=? m)%Z | None => true end.

(** What the declared bounds and choices of [c] say of the typed value
    [v]; a sentinel bound is not a declared one and is checked apart. *)
Definition accepts (c : validator) (v : json) : bool :=
  match c with
  | OneOf choices => existsb (scalar_eqb v) choices
  | Range lo hi =>
      match v with JNum z => above lo z && below hi z | _ => false end
  | AtLeast _ | AtMost _ => true
  end.

(** The parameter a sentinel bound refers to. *)
Definition reference (c : validator) : option string :=
  match c with
  | AtLeast p | AtMost p => Some p
  | OneOf _ | Range _ _ => None
  end.

(** The sentinel bound of [c], resolved to [target], on the number [z]. *)
Definition within (c : validator) (target z : Z) : bool :=
  match c with
  | AtLeast _ => (target <=? z)%Z
  | AtMost _ => (z <=? target)%Z
  | OneOf _ | Range _ _ => true
  end.

Definition is_label (kv : string * json) : bool :=
  negb (String.eqb (fst kv) "value").

(** A baseline entry matches an entry when they agree on every dimension
    both label; a dimension either leaves unlabelled matches. *)
Definition agrees (entry baseline_entry : dict json) : bool :=
  forallb
    (fun kv =>
       match get (fst kv) baseline_entry with
       | Some l => scalar_eqb (snd kv) l
       | None => true
       end)
    (filter is_label entry).

(** The entries the cleaned baseline holds for parameter [p]. *)
Definition baseline_entries (cleaned : json) (p : string) : list json :=
  match cleaned with
  | JDict params =>
      match get p params with
      | Some (JDict attrs) =>
          match get "value" attrs with
          | Some (JList entries) => entries
          | _ => []
          end
      | _ => []
      end
  | _ => []
  end.

(** The number a baseline entry gives, when it matches [entry]. *)
Definition target_of (entry : dict json) (baseline_entry : json)
    : list Z :=
  match baseline_entry with
  | JDict labels =>
      if agrees entry labels then
        match get "value" labels with Some (JNum z) => [z] | _ => [] end
      else []
  | _ => []
  end.

(** The values of parameter [p] in the cleaned baseline at the label
    assignment of [entry]. *)
Definition targets (cleaned : json) (entry : dict json) (p : string)
    : list Z :=
  flat_map (target_of entry) (baseline_entries cleaned p).

(** The check of a sentinel bound.  Without a bound baseline (the
    baseline's own load) it is not made; with one, a reference that finds
    no matching baseline value is a [ContextResolutionError], and the
    value must keep the bound against every matching one. *)
Definition reference_violations (base : option json) (entry : dict json)
    (c : validator) (v : json) : list violation_kind :=
  match reference c, base with
  | Some p, Some cleaned =>
      match targets cleaned entry p with
      | [] => [ContextResolutionError p]
      | ts =>
          match v with
          | JNum z =>
              if forallb (fun t => within c t z) ts then [] else [Rejected c]
          | _ => [Rejected c]
          end
      end
  | _, _ => []
  end.

Definition validator_violations (base : option json) (entry : dict json)
    (v : json) (c : validator) : list violation_kind :=
  (if accepts c v then [] else [Rejected c])
  ++ reference_violations base entry c v.

Definition leaf_violations (base : option json) (entry : dict json)
    (t : semtype) (validate : list validator) (v : json)
    : list violation :=
  match convert t v with
  | None => [Violation [] (InvalidType t)]
  | Some v' =>
      map (Violation []) (flat_map (validator_violations base entry v') validate)
  end.

(** One entry of a mapping: [found f] when [k] names the field [f]. *)
Definition dispatch {A} (found : field -> A) (unknown : A) (k : string)
    : dict field -> A :=
  fix go (fs : dict field) : A :=
    match fs with
    | [] => unknown
    | (k', f) :: fs' => if String.eqb k k' then found f else go fs'
    end.

Definition mapping_violations (item : string -> json -> list violation)
    (x : json) : list violation :=
  match x with
  | JDict items =>
      flat_map (fun kv => map (under (Key (fst kv))) (item (fst kv) (snd kv)))
               items
  | _ => [Violation [] NotAMapping]
  end.

Fixpoint indexed {A} (one : json -> list A) (wrap : nat -> A -> A)
    (i : nat) (xs : list json) : list A :=
  match xs with
  | [] => []
  | x :: xs' => map (wrap i) (one x) ++ indexed one wrap (S i) xs'
  end.

Definition sequence_violations (one : json -> list violation)
    (v : json) : list violation :=
  match v with
  | JList xs => indexed one (fun i => under (Index i)) 0 xs
  | _ => [Violation [] NotASequence]
  end.

(** The items of a cleaned mapping, in the order the schema declares
    them. *)
Definition clean_fields (rec : field -> json -> json) (items : dict json)
    : dict field -> dict json :=
  fix go (fs : dict field) : dict json :=
    match fs with
    | [] => []
    | (k, f) :: fs' =>
        match get k items with
        | Some x => (k, rec f x) :: go fs'
        | None => go fs'
        end
    end.

Definition clean_mapping (fields_of : dict json -> dict json) (x : json)
    : json :=
  match x with JDict items => JDict (fields_of items) | _ => x end.

Definition clean_sequence (one : json -> json) (v : json) : json :=
  match v with JList xs => JList (map one xs) | _ => v end.

(** Modelled from the spec: the cleaned document [Schema.load] returns
    (section 4.5): typed values, labels in canonical order. *)
Fixpoint clean (f : field) (v : json) {struct f} : json :=
  match f with
  | Typed t _ => match convert t v with Some v' => v' | None => v end
  | Nested n many =>
      let one :=
        clean_mapping (fun items =>
          clean_fields clean items (declared_fields (nested_class n))) in
      if many || nested_many n then clean_sequence one v else one v
  end.

(** The label assignment of the entry [x] of class [cls]: its cleaned
    items. *)
Definition entry_of (cls : schema_class) (x : json) : dict json :=
  match clean (Nested (OfClass cls) false) x with
  | JDict items => items
  | _ => []
  end.

(** Modelled from the spec: the violations [Schema.load] collects when
    the value [v] is loaded through the field [f] (sections 4.2 to 4.5
    and 7): a value against its type validator and then against each
    declared validator, a mapping key by key, a sequence entry by entry.
    [base] is the cleaned baseline bound as context, if any, and [entry]
    the cleaned entry that holds [v]; sentinel bounds are resolved in
    them. *)
Fixpoint violations (base : option json) (f : field) (entry : dict json)
    (v : json) {struct f} : list violation :=
  match f with
  | Typed t validate => leaf_violations base entry t validate v
  | Nested n many =>
      let one := fun x =>
        mapping_violations (fun k x' =>
          dispatch (fun f' => violations base f' (entry_of (nested_class n) x) x')
            [Violation [] UnknownName] k
            (declared_fields (nested_class n))) x in
      if many || nested_many n then sequence_violations one v else one v
  end.

(** The violations of one entry against the fields of [item]. *)
Definition entry_violations (base : option json) (item : schema_class)
    (e : json) : list violation :=
  mapping_violations (fun k x =>
    dispatch (fun f' => violations base f' (entry_of item e) x)
      [Violation [] UnknownName] k
      (declared_fields item)) e.

End Load.

(** ** Exceptions and results *)

Inductive exn : Type :=
| AttributeError (msg : string)
| KeyError (key : string)
| ValueError (msg : string)
| OSError (msg : string)
| JSONDecodeError (msg : string)
| TypeResolutionError (msg : string)
| ValidationError (errors : list violation).

Inductive result (A : Type) : Type :=
| Raise (e : exn)
| Return (a : A).

Arguments Raise {A} e.
Arguments Return {A} a.

Definition and_then {A B} (r : result A) (k : A -> result B) : result B :=
  match r with Raise e => Raise e | Return a => k a end.

Notation "'let*' x ':=' r 'in' k" := (and_then r (fun x => k))
  (at level 10, x name, r at level 100, k at level 200).

(** [d[k]] *)
Definition getitem {V} (k : string) (d : dict V) : result V :=
  match get k d with Some v => Return v | None => Raise (KeyError k) end.

(** [v.items()] *)
Definition items_of (v : json) : result (dict json) :=
  match v with
  | JDict items => Return items
  | _ => Raise (AttributeError "items")
  end.

(** ** The builder and its observable history *)

Record SchemaBuilder : Type := Builder {
  BaseParamSchema : schema_class;
  dim_validators : dict field;
  base_spec : json;
  param_schema : option schema;
  validator_schema : option schema
}.

(** What a run does to the schema objects: [param_schema.load] in
    [build_schemas], the assignment to [validator_schema.context], and
    [validator_schema.load] in [load_params].  A history lists them newest
    first. *)
Inductive event : Type :=
| BaselineLoad (receiver : schema) (data : json) (outcome : result json)
| ContextBind (key : string) (value : json)
| RevisionLoad (receiver : schema) (data : json) (outcome : result json).

Record world : Type := World {
  self : SchemaBuilder;
  history : list event
}.

Definition Py (A : Type) : Type := world -> result A * world.

Definition ret {A} (a : A) : Py A := fun w => (Return a, w).

Definition raise {A} (e : exn) : Py A := fun w => (Raise e, w).

Definition bind {A B} (m : Py A) (k : A -> Py B) : Py B :=
  fun w =>
    match m w with
    | (Return a, w') => k a w'
    | (Raise e, w') => (Raise e, w')
    end.

Notation "x <- m ;; k" := (bind m (fun x => k))
  (at level 61, m at next level, right associativity).
Notation "m ;; k" := (bind m (fun _ => k))
  (at level 61, right associativity).

Definition lift {A} (r : result A) : Py A := fun w => (r, w).

Definition getattr {A} (name : string) (attr : SchemaBuilder -> option A)
    : Py A :=
  fun w =>
    match attr (self w) with
    | Some a => (Return a, w)
    | None => (Raise (AttributeError name), w)
    end.

Definition read {A} (attr : SchemaBuilder -> A) : Py A :=
  fun w => (Return (attr (self w)), w).

Definition modify (f : SchemaBuilder -> SchemaBuilder) : Py unit :=
  fun w => (Return tt, {| self := f (self w); history := history w |}).

Definition emit (e : event) : Py unit :=
  fun w => (Return tt, {| self := self w; history := e :: history w |}).

Definition set_param_schema (s : schema) (b : SchemaBuilder) : SchemaBuilder :=
  {| BaseParamSchema := BaseParamSchema b;
     dim_validators := dim_validators b;
     base_spec := base_spec b;
     param_schema := Some s;
     validator_schema := validator_schema b |}.

Definition set_validator_schema (s : schema) (b : SchemaBuilder)
    : SchemaBuilder :=
  {| BaseParamSchema := BaseParamSchema b;
     dim_validators := dim_validators b;
     base_spec := base_spec b;
     param_schema := param_schema b;
     validator_schema := Some s |}.

Definition set_context (key : string) (value : json) (s : schema) : schema :=
  {| schema_cls := schema_cls s;
     many := many s;
     context := set key value (context s) |}.

(** Modelled from the spec: [EmptySchema] and [BaseValidatorSchema] of
    [paramtools.schema], which the source imports as the bases of the
    classes it creates.  Section 4.4 has each top-level schema hold the
    per-parameter fragments and nothing else: neither base declares a
    field. *)
Definition EmptySchema : schema_class :=
  {| cls_name := "EmptySchema";
     cls_bases := [cls_name Schema];
     declared_fields := [] |}.

Definition BaseValidatorSchema : schema_class :=
  {| cls_name := "BaseValidatorSchema";
     cls_bases := [cls_name Schema];
     declared_fields := [] |}.

(** The four classes [build_schemas] creates with [type]. *)
Definition ValidatorItem (dims : dict field) (fieldtype : field)
    : schema_class :=
  let classattrs := update [("value", fieldtype)] dims in
  type_ "ValidatorItem" EmptySchema classattrs.

Definition IndividualParamSchema (bps item : schema_class) : schema_class :=
  let classattrs := [("value", Nested (OfClass item) true)] in
  type_ "IndividualParamSchema" bps classattrs.

Definition ParamSchema (param_dict : dict schema_class) : schema_class :=
  let classattrs :=
    comprehension (fun v => Nested (OfClass v) false) param_dict in
  type_ "ParamSchema" EmptySchema classattrs.

Definition ValidatorSchema (validator_dict : dict schema_class)
    : schema_class :=
  let classattrs :=
    comprehension (fun v => Nested (OfInstance v true) false) validator_dict in
  type_ "ValidatorSchema" BaseValidatorSchema classattrs.

Section Builder.

(** The collaborators the module imports: [utils.get_type],
    [utils.read_json], [schema.get_param_schema], [os.path.exists],
    [json.loads] and the [load] method of a schema instance.  Each is a
    function of its arguments; a raised exception is a [Raise] result. *)
Variable get_type : json -> result field.
Variable read_json : string -> result json.
Variable get_param_schema :
  json -> dict field -> result (schema_class * dict field).
Variable path_exists : string -> bool.
Variable json_loads : string -> result json.
Variable load : schema -> json -> result json.

(** A builder as [__init__] leaves it: no schema attribute yet. *)
Definition fresh (bps : schema_class) (dims : dict field) (spec : json)
    : SchemaBuilder :=
  {| BaseParamSchema := bps;
     dim_validators := dims;
     base_spec := spec;
     param_schema := None;
     validator_schema := None |}.

(** [SchemaBuilder.__init__] *)
Definition init (schema_def_path base_spec_path : string)
    (field_map : dict field) : result SchemaBuilder :=
  let* schema_def := read_json schema_def_path in
  let* got := get_param_schema schema_def field_map in
  let* spec := read_json base_spec_path in
  Return (fresh (fst got) (snd got) spec).

(** The [for k, v in self.base_spec.items()] loop of [build_schemas]. *)
Fixpoint compile_params (bps : schema_class) (dims : dict field)
    (items : dict json) (param_dict validator_dict : dict schema_class)
    : result (dict schema_class * dict schema_class) :=
  match items with
  | [] => Return (param_dict, validator_dict)
  | (k, v) :: rest =>
      let* fieldtype := get_type v in
      let validator_dict := set k (ValidatorItem dims fieldtype) validator_dict in
      let* item := getitem k validator_dict in
      let param_dict := set k (IndividualParamSchema bps item) param_dict in
      compile_params bps dims rest param_dict validator_dict
  end.

Definition build_schemas : Py unit :=
  spec <- read base_spec ;;
  bps <- read BaseParamSchema ;;
  dims <- read dim_validators ;;
  items <- lift (items_of spec) ;;
  dicts <- lift (compile_params bps dims items [] []) ;;
  let param_dict := fst dicts in
  let validator_dict := snd dicts in
  modify (set_param_schema (instantiate (ParamSchema param_dict))) ;;
  ps <- getattr "param_schema" param_schema ;;
  spec <- read base_spec ;;
  emit (BaselineLoad ps spec (load ps spec)) ;;
  cleaned_base_spec <- lift (load ps spec) ;;
  modify (set_validator_schema (instantiate (ValidatorSchema validator_dict))) ;;
  vs <- getattr "validator_schema" validator_schema ;;
  emit (ContextBind "base_spec" cleaned_base_spec) ;;
  modify (set_validator_schema (set_context "base_spec" cleaned_base_spec vs)).

Definition load_params (params_or_path : json) : Py json :=
  params <-
    match params_or_path with
    | JStr path =>
        if path_exists path then lift (read_json path)
        else lift (json_loads path)
    | JDict _ => ret params_or_path
    | _ => raise (ValueError "params_or_path is not dict or file path")
    end ;;
  vs <- getattr "validator_schema" validator_schema ;;
  emit (RevisionLoad vs params (load vs params)) ;;
  lift (load vs params).

(** The document the dispatch of [load_params] hands to the schema. *)
Definition params_of (params_or_path : json) : result json :=
  match params_or_path with
  | JStr path => if path_exists path then read_json path else json_loads path
  | JDict _ => Return params_or_path
  | _ => Raise (ValueError "params_or_path is not dict or file path")
  end.

(** One revision load through [vs]: its outcome, and the world after it. *)
Definition validation (vs : schema) (params : json) (w : world)
    : result json * world :=
  (load vs params,
   World (self w) (RevisionLoad vs params (load vs params) :: history w)).

(** The builder once [param_schema] is assigned, and once both are. *)
Definition with_param_schema (param_dict : dict schema_class)
    (b : SchemaBuilder) : SchemaBuilder :=
  set_param_schema (instantiate (ParamSchema param_dict)) b.

Definition compiled (param_dict validator_dict : dict schema_class)
    (cleaned : json) (b : SchemaBuilder) : SchemaBuilder :=
  set_validator_schema
    (set_context "base_spec" cleaned
       (instantiate (ValidatorSchema validator_dict)))
    (with_param_schema param_dict b).

(** Parameter [k] of [items] was compiled into both dictionaries. *)
Definition compiled_pair (bps : schema_class) (dims : dict field)
    (items : dict json) (param_dict validator_dict : dict schema_class)
    (k : string) : Prop :=
  exists v fieldtype,
    In (k, v) items
    /\ get_type v = Return fieldtype
    /\ get k validator_dict = Some (ValidatorItem dims fieldtype)
    /\ get k param_dict
       = Some (IndividualParamSchema bps (ValidatorItem dims fieldtype)).

(** Executions: any sequence of method calls on one builder; the caller
    may catch what a call raises and go on. *)
Inductive call : Type :=
| BuildSchemas
| LoadParams (params_or_path : json).

Definition perform (w : world) (c : call) : world :=
  match c with
  | BuildSchemas => snd (build_schemas w)
  | LoadParams a => snd (load_params a w)
  end.

Definition run (calls : list call) (w : world) : world :=
  fold_left perform calls w.

End Builder.

Definition isinstance_str (v : json) : bool :=
  match v with JStr _ => true | _ => false end.

Definition isinstance_dict (v : json) : bool :=
  match v with JDict _ => true | _ => false end.

(** ** Reading a history *)




(** What a call made after the baseline schema [ps] loaded [spec] into
    [cleaned] may add to the history, if every baseline load repeats that
    one: the same load with the same outcome, the binding of that very
    value, or a revision load through a schema that holds it. *)
Definition repeats (ps : schema) (spec cleaned : json) (e : event) : Prop :=
  match e with
  | BaselineLoad receiver data outcome =>
      receiver = ps /\ data = spec /\ outcome = Return cleaned
  | ContextBind key value => key = "base_spec" /\ value = cleaned
  | RevisionLoad receiver _ _ =>
      get "base_spec" (context receiver) = Some cleaned
  end.

Definition is_baseline_load (e : event) : bool :=
  match e with BaselineLoad _ _ _ => true | _ => false end.

Definition is_build (c : call) : bool :=
  match c with BuildSchemas => true | LoadParams _ => false end.


(** ** What a revision violates

    The violations of a revision document [d], stated entry by entry,
    against the fragments a revision schema [vs] holds and the cleaned
    baseline [base] bound in its context. *)

Definition not_mapping (x : json) : Prop :=
  match x with JDict _ => False | _ => True end.

Definition not_sequence (x : json) : Prop :=
  match x with JList _ => False | _ => True end.

Inductive entry_violation (base : option json) (item : schema_class)
    : json -> violation -> Prop :=
| EntryShape : forall e,
    not_mapping e ->
    entry_violation base item e (Violation [] NotAMapping)
| EntryUnknown : forall labels k x,
    In (k, x) labels ->
    get k (declared_fields item) = None ->
    entry_violation base item (JDict labels) (Violation [Key k] UnknownName)
| EntryType : forall labels k x t validate,
    In (k, x) labels ->
    get k (declared_fields item) = Some (Typed t validate) ->
    Load.convert t x = None ->
    entry_violation base item (JDict labels)
      (Violation [Key k] (InvalidType t))
| EntryRejected : forall labels k x t validate x' c,
    In (k, x) labels ->
    get k (declared_fields item) = Some (Typed t validate) ->
    Load.convert t x = Some x' ->
    In c validate ->
    Load.accepts c x' = false ->
    entry_violation base item (JDict labels)
      (Violation [Key k] (Rejected c))
| EntryBound : forall labels k x t validate x' c p cleaned target,
    In (k, x) labels ->
    get k (declared_fields item) = Some (Typed t validate) ->
    Load.convert t x = Some x' ->
    In c validate ->
    Load.reference c = Some p ->
    base = Some cleaned ->
    In target (Load.targets cleaned (Load.entry_of item (JDict labels)) p) ->
    (forall z, x' = JNum z -> Load.within c target z = false) ->
    entry_violation base item (JDict labels)
      (Violation [Key k] (Rejected c))
| EntryUnresolved : forall labels k x t validate x' c p cleaned,
    In (k, x) labels ->
    get k (declared_fields item) = Some (Typed t validate) ->
    Load.convert t x = Some x' ->
    In c validate ->
    Load.reference c = Some p ->
    base = Some cleaned ->
    Load.targets cleaned (Load.entry_of item (JDict labels)) p = [] ->
    entry_violation base item (JDict labels)
      (Violation [Key k] (ContextResolutionError p))
| EntryNested : forall labels k x n m v,
    In (k, x) labels ->
    get k (declared_fields item) = Some (Nested n m) ->
    In v (Load.violations base (Nested n m)
            (Load.entry_of item (JDict labels)) x) ->
    entry_violation base item (JDict labels) (under (Key k) v).

Inductive revision_violation (vs : schema) (d : dict json)
    : violation -> Prop :=
| RevisionUnknown : forall k x,
    In (k, x) d ->
    get k (declared_fields (schema_cls vs)) = None ->
    revision_violation vs d (UnknownParameterError k)
| RevisionShape : forall k x item,
    In (k, x) d ->
    get k (declared_fields (schema_cls vs))
      = Some (Nested (OfInstance item true) false) ->
    not_sequence x ->
    revision_violation vs d (Violation [Key k] NotASequence)
| RevisionEntry : forall k entries item i e v,
    In (k, JList entries) d ->
    get k (declared_fields (schema_cls vs))
      = Some (Nested (OfInstance item true) false) ->
    nth_error entries i = Some e ->
    entry_violation (get "base_spec" (context vs)) item e v ->
    revision_violation vs d (under (Key k) (under (Index i) v)).

(** A revision schema: every fragment wraps a sequence of entries. *)
Definition revision_shaped (vs : schema) : Prop :=
  many vs = false
  /\ forall k f,
       get k (declared_fields (schema_cls vs)) = Some f ->
       exists item, f = Nested (OfInstance item true) false.

(** ** The collaborators, modelled *)

Module Model.

(** Modelled from the spec: [utils.get_type], the Type Resolver of section
    4.1.  A plain scalar is typed by its runtime representation; a
    structured entry by its [value] sub-field; a sequence by its entries,
    which must agree.  An empty or ambiguous shape is a
    [TypeResolutionError]. *)
Fixpoint resolve (v : json) : option semtype :=
  match v with
  | JNull => None
  | JBool _ => Some Boolean
  | JNum _ => Some Numeric
  | JStr _ => Some Text
  | JList xs =>
      (fix entries (xs : list json) : option semtype :=
         match xs with
         | [] => None
         | [x] => resolve x
         | x :: rest =>
             match resolve x, entries rest with
             | Some Numeric, Some Numeric => Some Numeric
             | Some Boolean, Some Boolean => Some Boolean
             | Some Text, Some Text => Some Text
             | _, _ => None
             end
         end) xs
  | JDict items =>
      (fix value_of (items : dict json) : option semtype :=
         match items with
         | [] => None
         | (k, x) :: rest =>
             if String.eqb "value" k then resolve x else value_of rest
         end) items
  end.

Definition get_type (v : json) : result field :=
  match resolve v with
  | Some t => Return (Typed t [])
  | None => Raise (TypeResolutionError "empty or ambiguous shape")
  end.

(** Modelled from the spec: [Schema.load] (sections 4.2, 4.4, 4.5 and
    7): one aggregate [ValidationError] listing every violation, or the
    cleaned document.  The cleaned baseline a schema holds in its context
    under [base_spec] is what sentinel bounds are resolved against; a
    schema that holds none, as the baseline schema does, makes no such
    check. *)
Definition load (s : schema) (data : json) : result json :=
  let f := Nested (OfInstance (schema_cls s) (many s)) false in
  match Load.violations (get "base_spec" (context s)) f [] data with
  | [] => Return (Load.clean f data)
  | errors => Raise (ValidationError errors)
  end.

(** Modelled from the spec: file reading and JSON parsing are outside
    collaborators (section 1).  A file system for [utils.read_json] and
    [os.path.exists] is a table of what reading each existing path gives. *)
Definition read_json (fs : dict (result json)) (path : string)
    : result json :=
  match get path fs with
  | Some r => r
  | None => Raise (OSError path)
  end.

Definition path_exists (fs : dict (result json)) (path : string) : bool :=
  mem path fs.

(** Modelled from the spec: JSON parsing is an outside collaborator
    (section 1).  This stand-in for [json.loads] knows the texts of the
    literals and of the empty containers and reports every other text as
    undecodable; the sample runs parse no other text. *)
Definition json_loads (text : string) : result json :=
  if String.eqb text "null" then Return JNull
  else if String.eqb text "true" then Return (JBool true)
  else if String.eqb text "false" then Return (JBool false)
  else if String.eqb text "[]" then Return (JList [])
  else if String.eqb text "{}" then Return (JDict [])
  else Raise (JSONDecodeError text).

End Model.

(** ** Sample documents *)

Module Examples.

Definition entry (value year : Z) : json :=
  JDict [("value", JNum value); ("year", JNum year)].

Definition bps : schema_class :=
  type_ "BaseParamSchema" Schema [("title", Typed Text [])].

Definition dims : dict field :=
  [("year", Typed Numeric [Range (Some 2000%Z) (Some 2030%Z)])].

(** Two parameters, each a sequence of label-qualified values. *)
Definition parameters : dict json :=
  [("A", JDict [("title", JStr "first"); ("value", JList [entry 5 2020])]);
   ("B", JDict [("value", JList [entry 3 2020; entry 4 2021])])].

Definition baseline : json := JDict parameters.

(** A baseline whose only entry carries a year outside the declared range. *)
Definition out_of_range : json :=
  JDict [("A", JDict [("value", JList [entry 5 1900])])].

(** A parameter declared as a scalar, in the two shapes a baseline can
    give it: as the parameter's [value], and as the parameter itself. *)
Definition scalar_value : json := JDict [("p", JDict [("value", JNum 5)])].
Definition scalar_param : json := JDict [("p", JNum 5)].

(** A schema definition with a dimension named [value], and a baseline
    whose value is a text. *)
Definition value_dims : dict field := [("value", Typed Numeric [])].
Definition text_value : json := JStr "7".
Definition text_baseline : json :=
  JDict [("A", JDict [("value", JList [JDict [("value", text_value)]])])].

Definition start (spec : json) : world := World (fresh bps dims spec) [].

(** The sample of section 8 of the specification: parameters [A] and [B]
    with the rule that [B] stays at or below [A] for the same year.  The
    baseline object of [B] names its bound under [at_most], which the
    base schema declares. *)
Definition rule_bps : schema_class :=
  type_ "BaseParamSchema" Schema
    [("title", Typed Text []); ("at_most", Typed Text [])].

Definition bounded : json :=
  JDict
    [("A", JDict [("value", JList [entry 5 2020])]);
     ("B", JDict [("at_most", JStr "A"); ("value", JList [entry 3 2020])])].

(** Modelled from the spec: a type resolver for that sample.  Section 1
    has range checks refer to the value of another parameter; this
    resolver gives a parameter whose baseline object names a bound a
    numeric field with that sentinel bound, and types every other value
    as section 4.1 says. *)
Definition get_type_with_rule (v : json) : result field :=
  match v with
  | JDict items =>
      match get "at_most" items with
      | Some (JStr p) => Return (Typed Numeric [AtMost p])
      | _ => Model.get_type v
      end
  | _ => Model.get_type v
  end.

Definition build_with_rule : Py unit :=
  build_schemas get_type_with_rule Model.load.

(** Revisions of [B]: above the bound, below it, for a year the baseline
    of [A] does not have, and with no year at all. *)
Definition too_high : dict json := [("B", JList [entry 10 2020])].
Definition low_enough : dict json := [("B", JList [entry 4 2020])].
Definition other_year : dict json := [("B", JList [entry 4 2021])].
Definition any_year : dict json := [("B", JList [JDict [("value", JNum 10)]])].

(** Five violations over two names, two of them against the baseline. *)
Definition mixed_revision : dict json :=
  [("B", JList [entry 10 2020;
                entry 4 2021;
                JDict [("value", JStr "x"); ("year", JNum 1999)]]);
   ("C", JNum 3)].

(** A valid revision, and one with four violations over two names. *)
Definition revision : dict json := [("B", JList [entry 4 2020])].

Definition bad_revision : dict json :=
  [("B", JList [entry 1 1999;
                JDict [("value", JStr "x"); ("month", JNum 3)]]);
   ("C", JNum 3)].

Definition fs : dict (result json) :=
  [("revision.json", Return (JDict revision));
   ("specs", Raise (OSError "specs is a directory"))].

Definition build : Py unit := build_schemas Model.get_type Model.load.

Definition revise : json -> Py json :=
  load_params (Model.read_json fs) (Model.path_exists fs) Model.json_loads
    Model.load.

Definition params_of_arg : json -> result json :=
  params_of (Model.read_json fs) (Model.path_exists fs) Model.json_loads.

End Examples.

Unset Implicit Arguments.
#[local] Set Default Proof Using "Type".

(** * Facts *)

(** ** Dictionaries *)

Module DictFacts.

Section WithValues.
Context {V : Type}.
Implicit Types (d : dict V) (k : string) (v : V).

Lemma get_set_eq k v d : get k (set k v d) = Some v.
Proof.
  induction d as [|[k' v'] d IH]; simpl.
  - now rewrite String.eqb_refl.
  - destruct (String.eqb k k') eqn:E; simpl.
    + now rewrite String.eqb_refl.
    + now rewrite E.
Qed.

Lemma get_set_neq k k' v d : k' <> k -> get k' (set k v d) = get k' d.
Proof.
  intros Hne. induction d as [|[k0 v0] d IH]; simpl.
  - destruct (String.eqb_spec k' k); [contradiction | reflexivity].
  - destruct (String.eqb_spec k k0) as [->|Hk]; simpl.
    + destruct (String.eqb_spec k' k0); [contradiction | reflexivity].
    + now rewrite IH.
Qed.

Lemma get_None k d : get k d = None <-> ~ In k (keys d).
Proof.
  induction d as [|[k' v'] d IH]; simpl.
  - tauto.
  - destruct (String.eqb_spec k k') as [->|Hk].
    + split; [discriminate | intros H; exfalso; apply H; now left].
    + rewrite IH. split; [intros H [E|Hin] | intros H Hin]; auto.
Qed.

Lemma get_Some_In k v d : get k d = Some v -> In (k, v) d.
Proof.
  induction d as [|[k' v'] d IH]; simpl; [discriminate|].
  destruct (String.eqb_spec k k') as [->|Hk].
  - intros [= ->]. now left.
  - intros H. right. now apply IH.
Qed.

Lemma In_keys k v d : In (k, v) d -> In k (keys d).
Proof. intros H. apply (in_map fst) in H. exact H. Qed.

Lemma keys_set k v d k' : In k' (keys (set k v d)) <-> k' = k \/ In k' (keys d).
Proof.
  induction d as [|[k0 v0] d IH]; simpl.
  - intuition.
  - destruct (String.eqb_spec k k0) as [->|Hk]; simpl.
    + intuition.
    + rewrite IH. intuition.
Qed.

Lemma set_fresh k v d : ~ In k (keys d) -> set k v d = d ++ [(k, v)].
Proof.
  induction d as [|[k0 v0] d IH]; simpl; intros H; [reflexivity|].
  destruct (String.eqb_spec k k0) as [->|Hk].
  - exfalso. apply H. now left.
  - rewrite IH; [reflexivity|]. intros Hin. apply H. now right.
Qed.

Lemma NoDup_set k v d : NoDup (keys d) -> NoDup (keys (set k v d)).
Proof.
  induction d as [|[k0 v0] d IH]; simpl; intros H.
  - constructor; [intros [] | constructor].
  - inversion H as [|? ? Hnot Hd]; subst.
    destruct (String.eqb_spec k k0) as [->|Hk]; simpl.
    + now constructor.
    + constructor; [|now apply IH].
      rewrite keys_set. intros [E|Hin]; [now subst | contradiction].
Qed.

Lemma unique_NoDup (ks : list string) : unique ks = true <-> NoDup ks.
Proof.
  induction ks as [|k ks IH]; simpl.
  - split; [constructor | reflexivity].
  - rewrite andb_true_iff, negb_true_iff, IH. split.
    + intros [Hk Hks]. constructor; [|exact Hks].
      intros Hin. assert (existsb (String.eqb k) ks = true) as E.
      { apply existsb_exists. exists k. split; [exact Hin|apply String.eqb_refl]. }
      congruence.
    + intros H. inversion H as [|? ? Hnot Hd]; subst. split; [|exact Hd].
      destruct (existsb (String.eqb k) ks) eqn:E; [|reflexivity].
      apply existsb_exists in E as (k' & Hin & Hk).
      apply String.eqb_eq in Hk. now subst.
Qed.

Lemma mem_false k d : mem k d = false <-> ~ In k (keys d).
Proof.
  unfold mem. rewrite <- get_None. destruct (get k d); split; congruence.
Qed.

Lemma filter_absent k (ks : list string) :
  ~ In k ks -> filter (String.eqb k) ks = [].
Proof.
  induction ks as [|k' ks IH]; simpl; intros H; [reflexivity|].
  destruct (String.eqb_spec k k') as [->|Hk].
  - exfalso. apply H. now left.
  - apply IH. intros Hin. apply H. now right.
Qed.

Lemma count_absent k d : ~ In k (keys d) -> count k d = 0%nat.
Proof. intros H. unfold count. now rewrite filter_absent. Qed.

Lemma count_present k d : NoDup (keys d) -> In k (keys d) -> count k d = 1%nat.
Proof.
  unfold count. induction (keys d) as [|k' ks IH]; simpl; intros Hd Hin.
  - contradiction.
  - inversion Hd as [|? ? Hnot Hks]; subst.
    destruct (String.eqb_spec k k') as [->|Hk]; simpl.
    + now rewrite filter_absent.
    + destruct Hin as [E|Hin]; [now subst|]. now apply IH.
Qed.

(** [{**d1, **d2}] keeps [d1] and appends [d2] when the keys of [d2] are
    new and distinct. *)
Lemma update_fresh d1 d2 :
  NoDup (keys d2) ->
  (forall k, In k (keys d2) -> ~ In k (keys d1)) ->
  update d1 d2 = d1 ++ d2.
Proof.
  unfold update. revert d1.
  induction d2 as [|[k v] d2 IH]; simpl; intros d1 Hd Hnew.
  - now rewrite app_nil_r.
  - inversion Hd as [|? ? Hnot Hd2]; subst.
    rewrite set_fresh by (apply Hnew; now left).
    rewrite IH; [now rewrite <- app_assoc | exact Hd2 |].
    intros k' Hin. unfold keys. rewrite map_app, in_app_iff. simpl.
    intros [H|[H|[]]].
    + apply (Hnew k'); [now right | exact H].
    + now subst.
Qed.

Lemma update_nil d : NoDup (keys d) -> update [] d = d.
Proof. intros H. now rewrite update_fresh. Qed.

End WithValues.

Section Comprehension.
Context {V W : Type} (f : V -> W).

Lemma keys_mapped d : keys (mapped f d) = keys d.
Proof. unfold keys, mapped. rewrite map_map. reflexivity. Qed.

Lemma get_mapped k d : get k (mapped f d) = option_map f (get k d).
Proof.
  induction d as [|[k' v] d IH]; simpl; [reflexivity|].
  destruct (String.eqb k k'); [reflexivity | exact IH].
Qed.

Lemma comprehension_mapped d :
  NoDup (keys d) -> comprehension f d = mapped f d.
Proof.
  intros Hd. unfold comprehension.
  assert (forall acc,
    (forall k, In k (keys d) -> ~ In k (keys acc)) ->
    fold_left (fun acc kv => set (fst kv) (f (snd kv)) acc) d acc
      = acc ++ mapped f d) as G.
  { induction d as [|[k v] d IH]; simpl; intros acc Hnew.
    - now rewrite app_nil_r.
    - inversion Hd as [|? ? Hnot Hd2]; subst.
      rewrite set_fresh by (apply Hnew; now left).
      rewrite IH; [now rewrite <- app_assoc | exact Hd2 |].
      intros k' Hin. unfold keys. rewrite map_app, in_app_iff. simpl.
      intros [H|[H|[]]].
      + apply (Hnew k'); [now right | exact H].
      + now subst. }
  now rewrite G.
Qed.

End Comprehension.

End DictFacts.

(** ** The builder *)

Section BuilderFacts.

Variable get_type : json -> result field.
Variable read_json : string -> result json.
Variable path_exists : string -> bool.
Variable json_loads : string -> result json.
Variable load : schema -> json -> result json.

Import DictFacts.

#[local] Abbreviation compile := (compile_params get_type).
#[local] Abbreviation build := (build_schemas get_type load).
#[local] Abbreviation revise :=
  (load_params read_json path_exists json_loads load).

Lemma compile_params_pairs bps dims items :
  forall pd vd pd' vd',
    compile bps dims items pd vd = Return (pd', vd') ->
    forall k,
      (In k (keys items) -> compiled_pair get_type bps dims items pd' vd' k)
      /\ (~ In k (keys items) -> get k pd' = get k pd /\ get k vd' = get k vd).
Proof.
  induction items as [|[k0 v0] rest IH]; simpl; intros pd vd pd' vd' H k.
  - injection H as <- <-. split; [intros [] | auto].
  - destruct (get_type v0) as [e|ft] eqn:Hft; simpl in H; [discriminate|].
    unfold getitem in H. rewrite get_set_eq in H. simpl in H.
    specialize (IH _ _ _ _ H k) as [IHin IHout].
    destruct (in_dec string_dec k (keys rest)) as [Hin|Hout].
    + split; [|intros Hn; exfalso; apply Hn; now right].
      intros _. destruct (IHin Hin) as (v & ft' & Hv & Hty & Hvd & Hpd).
      exists v, ft'. repeat split; auto. now right.
    + destruct (IHout Hout) as [Hpd Hvd]. split.
      * intros [<-|Hin]; [|contradiction].
        exists v0, ft. rewrite Hpd, Hvd, !get_set_eq.
        repeat split; auto. now left.
      * intros Hn. assert (k <> k0) as Hne by (intros ->; apply Hn; now left).
        rewrite Hpd, Hvd, !get_set_neq by exact Hne. auto.
Qed.

Lemma compile_params_NoDup bps dims items :
  forall pd vd pd' vd',
    compile bps dims items pd vd = Return (pd', vd') ->
    NoDup (keys pd) -> NoDup (keys vd) ->
    NoDup (keys pd') /\ NoDup (keys vd').
Proof.
  induction items as [|[k0 v0] rest IH]; simpl; intros pd vd pd' vd' H Hpd Hvd.
  - injection H as <- <-. auto.
  - destruct (get_type v0) as [e|ft]; simpl in H; [discriminate|].
    unfold getitem in H. rewrite get_set_eq in H. simpl in H.
    apply IH in H; auto using NoDup_set.
Qed.

(** The keys of both compiled dictionaries are the parameter names. *)
Lemma compile_params_keys bps dims items pd vd :
  compile bps dims items [] [] = Return (pd, vd) ->
  forall k, (In k (keys pd) <-> In k (keys items))
         /\ (In k (keys vd) <-> In k (keys items)).
Proof.
  intros H k. destruct (compile_params_pairs _ _ _ _ _ _ _ H k) as [Hin Hout].
  destruct (in_dec string_dec k (keys items)) as [Hk|Hk].
  - destruct (Hin Hk) as (v & ft & _ & _ & Hvd & Hpd).
    apply get_Some_In, In_keys in Hvd. apply get_Some_In, In_keys in Hpd.
    split; split; intros _; assumption.
  - destruct (Hout Hk) as [Hpd Hvd]. simpl in Hpd, Hvd.
    apply get_None in Hpd. apply get_None in Hvd.
    split; split; intros K; contradiction.
Qed.

Lemma ParamSchema_fields bps dims items pd vd :
  compile bps dims items [] [] = Return (pd, vd) ->
  declared_fields (ParamSchema pd)
    = mapped (fun v => Nested (OfClass v) false) pd.
Proof.
  intros H. destruct (compile_params_NoDup _ _ _ _ _ _ _ H) as [Hpd _];
    try constructor.
  unfold ParamSchema, type_. simpl.
  rewrite comprehension_mapped by exact Hpd.
  apply update_nil. now rewrite keys_mapped.
Qed.

Lemma ValidatorSchema_fields bps dims items pd vd :
  compile bps dims items [] [] = Return (pd, vd) ->
  declared_fields (ValidatorSchema vd)
    = mapped (fun v => Nested (OfInstance v true) false) vd.
Proof.
  intros H. destruct (compile_params_NoDup _ _ _ _ _ _ _ H) as [_ Hvd];
    try constructor.
  unfold ValidatorSchema, type_. simpl.
  rewrite comprehension_mapped by exact Hvd.
  apply update_nil. now rewrite keys_mapped.
Qed.

(** What one call of [build_schemas] does, by the place it stops at. *)
Lemma build_schemas_cases (w : world) :
  let b := self w in
  match items_of (base_spec b) with
  | Raise e => build w = (Raise e, w)
  | Return items =>
      match compile (BaseParamSchema b) (dim_validators b) items [] [] with
      | Raise e => build w = (Raise e, w)
      | Return dicts =>
          let ps := instantiate (ParamSchema (fst dicts)) in
          match load ps (base_spec b) with
          | Raise e =>
              build w
              = (Raise e,
                 World (with_param_schema (fst dicts) b)
                       (BaselineLoad ps (base_spec b) (Raise e) :: history w))
          | Return cleaned =>
              build w
              = (Return tt,
                 World (compiled (fst dicts) (snd dicts) cleaned b)
                       (ContextBind "base_spec" cleaned
                        :: BaselineLoad ps (base_spec b) (Return cleaned)
                        :: history w))
          end
      end
  end.
Proof.
  destruct w as [b h]. unfold build_schemas, bind, read, lift, modify,
    getattr, emit. simpl.
  destruct (items_of (base_spec b)) as [e|items]; [reflexivity|].
  destruct (compile _ _ items [] []) as [e|dicts]; [reflexivity|]. simpl.
  destruct (load _ (base_spec b)) as [e|cleaned]; reflexivity.
Qed.

Lemma load_params_cases (a : json) (w : world) :
  revise a w =
  match params_of read_json path_exists json_loads a with
  | Raise e => (Raise e, w)
  | Return params =>
      match validator_schema (self w) with
      | None => (Raise (AttributeError "validator_schema"), w)
      | Some vs =>
          (load vs params,
           World (self w)
                 (RevisionLoad vs params (load vs params) :: history w))
      end
  end.
Proof.
  destruct w as [b h]. unfold load_params, params_of, bind, lift, ret, raise,
    getattr, emit. simpl.
  destruct a as [| | |path| |]; simpl; try reflexivity.
  - destruct (path_exists path).
    + destruct (read_json path); simpl; [reflexivity|].
      destruct (validator_schema b); reflexivity.
    + destruct (json_loads path); simpl; [reflexivity|].
      destruct (validator_schema b); reflexivity.
  - destruct (validator_schema b); reflexivity.
Qed.

(** A successful call, read backwards. *)
Lemma build_schemas_success (w w1 : world) :
  build w = (Return tt, w1) ->
  exists items pd vd cleaned,
    base_spec (self w) = JDict items
    /\ compile (BaseParamSchema (self w)) (dim_validators (self w)) items [] []
       = Return (pd, vd)
    /\ load (instantiate (ParamSchema pd)) (base_spec (self w)) = Return cleaned
    /\ self w1 = compiled pd vd cleaned (self w)
    /\ history w1
       = ContextBind "base_spec" cleaned
         :: BaselineLoad (instantiate (ParamSchema pd)) (base_spec (self w))
              (Return cleaned)
         :: history w.
Proof.
  intros H. pose proof (build_schemas_cases w) as C. simpl in C.
  destruct (base_spec (self w)) as [| | | | |items] eqn:Hspec; simpl in C;
    try (rewrite C in H; discriminate).
  destruct (compile _ _ items [] []) as [e|[pd vd]] eqn:Hc;
    [rewrite C in H; discriminate|].
  simpl in C. destruct (load _ _) as [e|cleaned] eqn:Hl;
    rewrite C in H; [discriminate|].
  injection H as <-. exists items, pd, vd, cleaned. simpl. auto.
Qed.

(** The loop raises only what [get_type] raised for one of the
    parameters: the lookup [validator_dict[k]] cannot fail. *)
Lemma compile_params_raises bps dims items :
  forall pd vd e,
    compile bps dims items pd vd = Raise e ->
    exists k v, In (k, v) items /\ get_type v = Raise e.
Proof.
  induction items as [|[k0 v0] rest IH]; simpl; intros pd vd e H;
    [discriminate|].
  destruct (get_type v0) as [e0|ft] eqn:Hft; simpl in H.
  - injection H as <-. exists k0, v0. split; [now left | exact Hft].
  - unfold getitem in H. rewrite get_set_eq in H. simpl in H.
    destruct (IH _ _ _ H) as (k & v & Hin & Hv).
    exists k, v. split; [now right | exact Hv].
Qed.

(** *** Failure of a compile step *)

(** X1.  [build_schemas] raises what one of its collaborators raised, and
    nothing else: [items] on a baseline that is no mapping, [get_type] on
    the value of a parameter, or the baseline schema's [load]. *)
Theorem build_schemas_raises (w w' : world) (e : exn) :
  build w = (Raise e, w') ->
  items_of (base_spec (self w)) = Raise e
  \/ (exists items k v,
        base_spec (self w) = JDict items
        /\ In (k, v) items
        /\ get_type v = Raise e)
  \/ (exists ps,
        param_schema (self w') = Some ps
        /\ load ps (base_spec (self w)) = Raise e).
Proof.
  intros H. pose proof (build_schemas_cases w) as C. simpl in C.
  destruct (items_of (base_spec (self w))) as [e0|items] eqn:Hitems.
  { rewrite C in H. injection H as <- <-. now left. }
  destruct (compile _ _ items [] []) as [e0|[pd vd]] eqn:Hc.
  { rewrite C in H. injection H as <- <-. right. left.
    destruct (compile_params_raises _ _ _ _ _ _ Hc) as (k & v & Hin & Hv).
    exists items, k, v. destruct (base_spec (self w)); try discriminate.
    injection Hitems as ->. auto. }
  simpl in C. destruct (load _ _) as [e0|cleaned] eqn:Hl;
    rewrite C in H; [|discriminate].
  injection H as <- <-. right. right. eexists. split; [reflexivity|].
  exact Hl.
Qed.

(** X2.  [build_schemas] keeps the three attributes [__init__] assigned. *)
Theorem build_schemas_keeps_inputs (w : world) :
  BaseParamSchema (self (snd (build w))) = BaseParamSchema (self w)
  /\ dim_validators (self (snd (build w))) = dim_validators (self w)
  /\ base_spec (self (snd (build w))) = base_spec (self w).
Proof.
  pose proof (build_schemas_cases w) as C. simpl in C.
  destruct (items_of (base_spec (self w))) as [e|items];
    [rewrite C; auto|].
  destruct (compile _ _ items [] []) as [e|dicts]; [rewrite C; auto|].
  simpl in C. destruct (load _ _) as [e|cleaned]; rewrite C; auto.
Qed.

(** X3.  [load_params] changes no attribute of the builder, and adds to
    the history at most the one revision load it ran. *)
Theorem load_params_keeps_builder (a : json) (w : world) :
  self (snd (revise a w)) = self w
  /\ (history (snd (revise a w)) = history w
      \/ exists vs params,
           validator_schema (self w) = Some vs
           /\ history (snd (revise a w))
              = RevisionLoad vs params (fst (revise a w)) :: history w).
Proof.
  rewrite load_params_cases.
  destruct (params_of _ _ _ a) as [e|params]; [auto|].
  destruct (validator_schema (self w)) as [vs|]; [|auto].
  split; [reflexivity|]. right. exists vs, params. auto.
Qed.


(** C1 (amended).  A failing [build_schemas] never assigns
    [validator_schema]: the attribute is as it was before the call, absent
    on a fresh builder.  Either the call stopped before touching anything,
    or it stopped in the baseline load: then [param_schema] is assigned and
    holds the complete baseline schema whose [load] raised, and that load
    is the one event added to the history. *)
Theorem failed_build_assigns_no_validator_schema (w w' : world) (e : exn) :
  build w = (Raise e, w') ->
  validator_schema (self w') = validator_schema (self w)
  /\ (w' = w
      \/ exists items pd vd,
           base_spec (self w) = JDict items
           /\ compile (BaseParamSchema (self w)) (dim_validators (self w))
                items [] [] = Return (pd, vd)
           /\ load (instantiate (ParamSchema pd)) (base_spec (self w)) = Raise e
           /\ self w' = with_param_schema pd (self w)
           /\ param_schema (self w') = Some (instantiate (ParamSchema pd))
           /\ history w'
              = BaselineLoad (instantiate (ParamSchema pd))
                  (base_spec (self w)) (Raise e) :: history w).
Proof.
  intros H. pose proof (build_schemas_cases w) as C. simpl in C.
  destruct (items_of (base_spec (self w))) as [e0|items] eqn:Hitems.
  { rewrite C in H. injection H as <- <-. auto. }
  destruct (compile _ _ items [] []) as [e0|[pd vd]] eqn:Hc.
  { rewrite C in H. injection H as <- <-. auto. }
  simpl in C. destruct (load _ _) as [e0|cleaned] eqn:Hl;
    rewrite C in H; [|discriminate].
  injection H as <- <-. split; [reflexivity|]. right.
  exists items, pd, vd. simpl.
  destruct (base_spec (self w)); try discriminate.
  injection Hitems as ->. auto 10.
Qed.

(** *** The compiled fragments *)

Lemma compiled_fragments (w w1 : world) (items : dict json) :
  build w = (Return tt, w1) ->
  base_spec (self w) = JDict items ->
  exists pd vd cleaned,
    compile (BaseParamSchema (self w)) (dim_validators (self w)) items [] []
      = Return (pd, vd)
    /\ self w1 = compiled pd vd cleaned (self w)
    /\ param_schema (self w1) = Some (instantiate (ParamSchema pd))
    /\ validator_schema (self w1)
       = Some (set_context "base_spec" cleaned
                 (instantiate (ValidatorSchema vd)))
    /\ declared_fields (ParamSchema pd)
       = mapped (fun v => Nested (OfClass v) false) pd
    /\ declared_fields (ValidatorSchema vd)
       = mapped (fun v => Nested (OfInstance v true) false) vd.
Proof.
  intros H Hspec.
  destruct (build_schemas_success _ _ H)
    as (items' & pd & vd & cleaned & Hs & Hc & _ & Hself & _).
  rewrite Hspec in Hs. injection Hs as <-.
  exists pd, vd, cleaned. rewrite Hself. simpl.
  repeat split; try exact Hc.
  - exact (ParamSchema_fields _ _ _ _ _ Hc).
  - exact (ValidatorSchema_fields _ _ _ _ _ Hc).
Qed.

(** C2 (amended).  For every parameter [k] of the baseline, whatever the
    baseline declares for it, the value-entry validator is wrapped as a
    sequence: the baseline fragment's [value] field is
    [Nested(item, many=True)] and the revision fragment is
    [Nested(item(many=True))], around the same [item]. *)
Theorem value_entries_always_a_sequence
    (w w1 : world) (items : dict json) (k : string) :
  build w = (Return tt, w1) ->
  base_spec (self w) = JDict items ->
  In k (keys items) ->
  exists ps vs item,
    let individual := IndividualParamSchema (BaseParamSchema (self w)) item in
    param_schema (self w1) = Some ps
    /\ validator_schema (self w1) = Some vs
    /\ get k (declared_fields (schema_cls ps))
       = Some (Nested (OfClass individual) false)
    /\ get "value" (declared_fields individual)
       = Some (Nested (OfClass item) true)
    /\ get k (declared_fields (schema_cls vs))
       = Some (Nested (OfInstance item true) false).
Proof.
  intros H Hspec Hk.
  destruct (compiled_fragments _ _ _ H Hspec)
    as (pd & vd & cleaned & Hc & _ & Hps & Hvs & Hpf & Hvf).
  destruct (compile_params_pairs _ _ _ _ _ _ _ Hc k) as [Hin _].
  destruct (Hin Hk) as (v & ft & _ & _ & Hvd & Hpd).
  eexists _, _, (ValidatorItem (dim_validators (self w)) ft). simpl.
  split; [exact Hps|]. split; [exact Hvs|].
  unfold set_context, instantiate. cbn [schema_cls].
  rewrite Hpf, Hvf, !get_mapped, Hvd, Hpd.
  repeat split. unfold IndividualParamSchema, type_, update.
  cbn [declared_fields fold_left fst snd]. apply get_set_eq.
Qed.

(** C6.  After [build_schemas] returns, the baseline schema and the
    revision schema each hold exactly one fragment under every parameter
    name of the baseline specification, and none under any other name. *)
Theorem one_fragment_per_parameter (w w1 : world) (items : dict json) :
  build w = (Return tt, w1) ->
  base_spec (self w) = JDict items ->
  exists ps vs,
    param_schema (self w1) = Some ps
    /\ validator_schema (self w1) = Some vs
    /\ forall k,
         (In k (keys items) ->
            count k (declared_fields (schema_cls ps)) = 1%nat
            /\ count k (declared_fields (schema_cls vs)) = 1%nat)
         /\ (~ In k (keys items) ->
               count k (declared_fields (schema_cls ps)) = 0%nat
               /\ count k (declared_fields (schema_cls vs)) = 0%nat).
Proof.
  intros H Hspec.
  destruct (compiled_fragments _ _ _ H Hspec)
    as (pd & vd & cleaned & Hc & _ & Hps & Hvs & Hpf & Hvf).
  destruct (compile_params_NoDup _ _ _ _ _ _ _ Hc) as [Npd Nvd];
    try constructor.
  eexists _, _. split; [exact Hps|]. split; [exact Hvs|].
  unfold set_context, instantiate. cbn [schema_cls].
  intros k. destruct (compile_params_keys _ _ _ _ _ Hc k) as [Kpd Kvd].
  rewrite Hpf, Hvf. split; intros Hk; split.
  - apply count_present; rewrite keys_mapped; [exact Npd | now apply Kpd].
  - apply count_present; rewrite keys_mapped; [exact Nvd | now apply Kvd].
  - apply count_absent; rewrite keys_mapped. intros K. now apply Hk, Kpd.
  - apply count_absent; rewrite keys_mapped. intros K. now apply Hk, Kvd.
Qed.

(** C7 (amended).  Provided no dimension is itself named [value], the
    value-entry validator compiled for a parameter [k] has exactly these
    fields: [value], validated by the type resolved from a baseline value
    of [k], followed by every globally declared dimension validator; the
    same validator sits in both schemas. *)
Theorem value_entry_validator_fields
    (w w1 : world) (items : dict json) (k : string) :
  build w = (Return tt, w1) ->
  base_spec (self w) = JDict items ->
  wf (dim_validators (self w)) = true ->
  mem "value" (dim_validators (self w)) = false ->
  In k (keys items) ->
  exists ps vs item v fieldtype,
    param_schema (self w1) = Some ps
    /\ validator_schema (self w1) = Some vs
    /\ get k (declared_fields (schema_cls ps))
       = Some (Nested
                 (OfClass (IndividualParamSchema (BaseParamSchema (self w))
                             item)) false)
    /\ get k (declared_fields (schema_cls vs))
       = Some (Nested (OfInstance item true) false)
    /\ In (k, v) items
    /\ get_type v = Return fieldtype
    /\ declared_fields item
       = ("value", fieldtype) :: dim_validators (self w).
Proof.
  intros H Hspec Hwf Hvalue Hk.
  destruct (compiled_fragments _ _ _ H Hspec)
    as (pd & vd & cleaned & Hc & _ & Hps & Hvs & Hpf & Hvf).
  destruct (compile_params_pairs _ _ _ _ _ _ _ Hc k) as [Hin _].
  destruct (Hin Hk) as (v & ft & Hv & Hft & Hvd & Hpd).
  eexists _, _, (ValidatorItem (dim_validators (self w)) ft), v, ft.
  split; [exact Hps|]. split; [exact Hvs|].
  unfold set_context, instantiate. cbn [schema_cls].
  rewrite Hpf, Hvf, !get_mapped, Hvd, Hpd.
  repeat split; auto.
  apply unique_NoDup in Hwf. apply mem_false in Hvalue.
  unfold ValidatorItem, type_. cbn [declared_fields EmptySchema].
  rewrite (update_fresh [("value", ft)]); auto.
  - apply update_nil. simpl. constructor; assumption.
  - simpl. intros k' Hk' [<-|[]]. contradiction.
Qed.

(** *** The cached baseline *)


Lemma rebuild_repeats (w w1 w2 : world) items pd vd cleaned :
  base_spec (self w) = JDict items ->
  compile (BaseParamSchema (self w)) (dim_validators (self w)) items [] []
    = Return (pd, vd) ->
  load (instantiate (ParamSchema pd)) (base_spec (self w)) = Return cleaned ->
  self w1 = compiled pd vd cleaned (self w) ->
  self w2 = self w1 ->
  build w2
  = (Return tt,
     World (self w1)
       (ContextBind "base_spec" cleaned
        :: BaselineLoad (instantiate (ParamSchema pd)) (base_spec (self w))
             (Return cleaned)
        :: history w2)).
Proof.
  intros Hs Hc Hl Hself H2.
  pose proof (build_schemas_cases w2) as C. simpl in C.
  rewrite H2, Hself in C. simpl in C. rewrite Hs in C. simpl in C.
  rewrite Hc in C. simpl in C. rewrite <- Hs, Hl in C.
  rewrite C, Hself, Hs. reflexivity.
Qed.

(** C9.  Loading a valid baseline twice gives identical cleaned
    baselines.  Once [build_schemas] has loaded the baseline through the
    baseline schema [ps] and got [cleaned], every [build_schemas] call of
    any continuation loads the baseline again, the same document through
    the same schema, gets [cleaned] again and binds it again; the
    builder's attributes stay as the first call left them, and every
    revision load in between goes through a schema that holds
    [cleaned]. *)
Theorem baseline_load_repeats (w w1 : world) (calls : list call) :
  build w = (Return tt, w1) ->
  exists ps cleaned,
    let spec := base_spec (self w) in
    let w2 := run get_type read_json path_exists json_loads load calls w1 in
    load ps spec = Return cleaned
    /\ history w1
       = ContextBind "base_spec" cleaned
         :: BaselineLoad ps spec (Return cleaned) :: history w
    /\ self w2 = self w1
    /\ exists later,
         history w2 = later ++ history w1
         /\ Forall (repeats ps spec cleaned) later
         /\ List.length (filter is_baseline_load later)
            = List.length (filter is_build calls).
Proof.
  intros H.
  destruct (build_schemas_success _ _ H)
    as (items & pd & vd & cleaned & Hs & Hc & Hl & Hself & Hh).
  exists (instantiate (ParamSchema pd)), cleaned. cbv zeta.
  split; [exact Hl|]. split; [exact Hh|].
  assert (forall w2 later0,
            self w2 = self w1 ->
            history w2 = later0 ++ history w1 ->
            Forall (repeats (instantiate (ParamSchema pd))
                      (base_spec (self w)) cleaned) later0 ->
            let w3 := run get_type read_json path_exists json_loads load
                        calls w2 in
            self w3 = self w1
            /\ exists later,
                 history w3 = later ++ history w1
                 /\ Forall (repeats (instantiate (ParamSchema pd))
                              (base_spec (self w)) cleaned) later
                 /\ List.length (filter is_baseline_load later)
                    = (List.length (filter is_baseline_load later0)
                       + List.length (filter is_build calls))%nat) as G.
  { induction calls as [|c calls IH]; intros w2 later0 H2 Hh2 HF; simpl.
    - split; [exact H2|]. exists later0. rewrite Nat.add_0_r. auto.
    - destruct c as [|a]; simpl.
      + rewrite (rebuild_repeats w w1 w2 items pd vd cleaned Hs Hc Hl Hself H2).
        simpl.
        destruct (IH (World (self w1)
                        (ContextBind "base_spec" cleaned
                         :: BaselineLoad (instantiate (ParamSchema pd))
                              (base_spec (self w)) (Return cleaned)
                         :: history w2))
                     (ContextBind "base_spec" cleaned
                      :: BaselineLoad (instantiate (ParamSchema pd))
                           (base_spec (self w)) (Return cleaned)
                      :: later0))
          as (Hs3 & later & Hh3 & HF3 & Hn); simpl.
        * reflexivity.
        * now rewrite Hh2.
        * constructor; [now split|]. constructor; [now repeat split|].
          exact HF.
        * split; [exact Hs3|]. exists later. split; [exact Hh3|].
          split; [exact HF3|]. rewrite Hn. simpl.
          now rewrite Nat.add_succ_r.
      + rewrite load_params_cases.
        destruct (params_of _ _ _ a) as [e|params]; simpl;
          [now apply IH|].
        assert (validator_schema (self w2)
                = Some (set_context "base_spec" cleaned
                          (instantiate (ValidatorSchema vd)))) as Hv
          by (rewrite H2, Hself; reflexivity).
        rewrite Hv. simpl.
        match goal with
        | |- context [run _ _ _ _ _ calls (World _ (?e :: _))] =>
            destruct (IH (World (self w2) (e :: history w2)) (e :: later0))
              as (Hs3 & later & Hh3 & HF3 & Hn)
        end.
        * exact H2.
        * simpl. now rewrite Hh2.
        * constructor; [reflexivity | exact HF].
        * split; [exact Hs3|]. exists later. auto. }
  destruct (G w1 [] eq_refl eq_refl (Forall_nil _)) as (Hs2 & later & Hl2).
  split; [exact Hs2|]. exists later. exact Hl2.
Qed.

(** *** Order of events *)






(** *** Dispatch of [load_params] *)

(** C10.  On a compiled builder, [load_params] validates what the file
    holds when its argument is a string naming an existing path, what the
    string parses to when it is any other string, and the argument itself
    when it is a dict.  Any other argument raises [ValueError] on every
    builder, and the history gains no schema load. *)
Theorem load_params_dispatch (w : world) (vs : schema) :
  validator_schema (self w) = Some vs ->
  (forall path,
      path_exists path = true ->
      revise (JStr path) w
      = match read_json path with
        | Raise e => (Raise e, w)
        | Return params => validation load vs params w
        end)
  /\ (forall text,
        path_exists text = false ->
        revise (JStr text) w
        = match json_loads text with
          | Raise e => (Raise e, w)
          | Return params => validation load vs params w
          end)
  /\ (forall d, revise (JDict d) w = validation load vs (JDict d) w)
  /\ (forall a w',
        isinstance_str a = false ->
        isinstance_dict a = false ->
        revise a w'
        = (Raise (ValueError "params_or_path is not dict or file path"), w')).
Proof.
  intros Hvs. repeat split.
  - intros path Hp. rewrite load_params_cases. simpl. rewrite Hp, Hvs.
    reflexivity.
  - intros text Hp. rewrite load_params_cases. simpl. rewrite Hp, Hvs.
    reflexivity.
  - intros d. rewrite load_params_cases. simpl. rewrite Hvs. reflexivity.
  - intros a w' Hs Hd. rewrite load_params_cases.
    destruct a; simpl in *; try discriminate; reflexivity.
Qed.

End BuilderFacts.

(** ** Construction *)

Section InitFacts.

Variable read_json : string -> result json.
Variable get_param_schema :
  json -> dict field -> result (schema_class * dict field).

(** [__init__] reads both files and leaves a builder with no schema. *)
Lemma init_fresh schema_def_path base_spec_path field_map b :
  init read_json get_param_schema schema_def_path base_spec_path field_map
    = Return b ->
  exists schema_def bps dims spec,
    read_json schema_def_path = Return schema_def
    /\ get_param_schema schema_def field_map = Return (bps, dims)
    /\ read_json base_spec_path = Return spec
    /\ b = fresh bps dims spec.
Proof.
  unfold init, and_then.
  destruct (read_json schema_def_path) as [e|schema_def] eqn:H1;
    [discriminate|].
  destruct (get_param_schema schema_def field_map) as [e|[bps dims]] eqn:H2;
    [discriminate|].
  destruct (read_json base_spec_path) as [e|spec] eqn:H3; [discriminate|].
  intros [= <-]. exists schema_def, bps, dims, spec. auto.
Qed.

End InitFacts.

(** ** Loading through the modelled schema *)

Module LoadFacts.

Import DictFacts Load.

Lemma dispatch_get {A} (found : field -> A) (unknown : A) k fs :
  dispatch found unknown k fs
  = match get k fs with Some f => found f | None => unknown end.
Proof.
  induction fs as [|[k' f] fs IH]; simpl; [reflexivity|].
  destruct (String.eqb k k'); [reflexivity | exact IH].
Qed.

Lemma In_indexed {A} (one : json -> list A) (wrap : nat -> A -> A) xs :
  forall i v,
    In v (indexed one wrap i xs)
    <-> exists j e v',
          nth_error xs j = Some e /\ In v' (one e) /\ v = wrap (i + j)%nat v'.
Proof.
  induction xs as [|x xs IH]; simpl; intros i v.
  - split; [intros [] | intros (j & e & v' & H & _)].
    destruct j; discriminate.
  - rewrite in_app_iff, in_map_iff, IH. split.
    + intros [(v' & <- & Hin) | (j & e & v' & Hn & Hin & ->)].
      * exists 0%nat, x, v'. rewrite Nat.add_0_r. auto.
      * exists (S j), e, v'. rewrite Nat.add_succ_r. auto.
    + intros ([|j] & e & v' & Hn & Hin & ->); simpl in Hn.
      * injection Hn as <-. left. exists v'. rewrite Nat.add_0_r. auto.
      * right. exists j, e, v'. rewrite Nat.add_succ_r. auto.
Qed.

Lemma violations_instance base (cls : schema_class) (m : bool) entry v :
  violations base (Nested (OfInstance cls m) false) entry v
  = if m then sequence_violations (entry_violations base cls) v
    else entry_violations base cls v.
Proof. reflexivity. Qed.

(** What one validator reports of a typed value. *)
Lemma In_validator_violations base entry x' c kind :
  In kind (validator_violations base entry x' c)
  <-> (accepts c x' = false /\ kind = Rejected c)
      \/ (exists p cleaned target,
            reference c = Some p /\ base = Some cleaned
            /\ In target (targets cleaned entry p)
            /\ (forall z, x' = JNum z -> within c target z = false)
            /\ kind = Rejected c)
      \/ (exists p cleaned,
            reference c = Some p /\ base = Some cleaned
            /\ targets cleaned entry p = []
            /\ kind = ContextResolutionError p).
Proof.
  unfold validator_violations, reference_violations.
  rewrite in_app_iff. split.
  - intros [H|H].
    + destruct (accepts c x') eqn:Ha; [destruct H|].
      destruct H as [<-|[]]. now left.
    + right. destruct (reference c) as [p|] eqn:Hr; [|destruct H].
      destruct base as [cleaned|]; [|destruct H].
      destruct (targets cleaned entry p) as [|t ts] eqn:Ht.
      * destruct H as [<-|[]]. right. now exists p, cleaned.
      * left. exists p, cleaned.
        destruct x' as [|b|z|s0|xs|its];
          try (destruct H as [<-|[]]; exists t;
               split; [reflexivity|]; split; [reflexivity|];
               split; [rewrite Ht; now left|];
               split; [intros ? ?; discriminate|]; reflexivity).
        destruct (forallb (fun t0 => within c t0 z) (t :: ts)) eqn:Hf;
          [destruct H|]. destruct H as [<-|[]].
        assert (exists t0, In t0 (t :: ts) /\ within c t0 z = false)
          as (t0 & Hin & Hw).
        { clear -Hf. induction (t :: ts) as [|a l IH]; simpl in Hf;
            [discriminate|].
          destruct (within c a z) eqn:Ha.
          - destruct (IH Hf) as (t0 & Hin & Hw). exists t0. split; auto.
            now right.
          - exists a. split; [now left | exact Ha]. }
        exists t0. rewrite Ht. repeat split; auto. now intros z' [= <-].
  - intros [[Ha ->]|[(p & cleaned & target & Hr & -> & Hin & Hz & ->)
                    |(p & cleaned & Hr & -> & Ht & ->)]].
    + left. rewrite Ha. now left.
    + right. rewrite Hr.
      destruct (targets cleaned entry p) as [|t ts] eqn:Ht; [destruct Hin|].
      destruct x' as [|b|z|s0|xs|its]; try now left.
      destruct (forallb (fun t0 => within c t0 z) (t :: ts)) eqn:Hf;
        [|now left].
      rewrite forallb_forall in Hf. specialize (Hz z eq_refl).
      rewrite (Hf target Hin) in Hz. discriminate Hz.
    + right. rewrite Hr, Ht. now left.
Qed.

Lemma In_leaf_violations base entry t validate x v :
  In v (leaf_violations base entry t validate x)
  <-> (convert t x = None /\ v = Violation [] (InvalidType t))
      \/ (exists x' c kind,
            convert t x = Some x' /\ In c validate
            /\ In kind (validator_violations base entry x' c)
            /\ v = Violation [] kind).
Proof.
  unfold leaf_violations. destruct (convert t x) as [x'|].
  - rewrite in_map_iff. split.
    + intros (kind & <- & Hk). apply in_flat_map in Hk as (c & Hc & Hk).
      right. now exists x', c, kind.
    + intros [[H _]|(x0 & c & kind & [= <-] & Hc & Hk & ->)]; [discriminate|].
      exists kind. split; [reflexivity|]. apply in_flat_map. now exists c.
  - split.
    + intros [<-|[]]. now left.
    + intros [[_ ->]|(x0 & c & kind & H & _)]; [now left | discriminate].
Qed.

Lemma In_entry_violations base item e v :
  In v (entry_violations base item e) <-> entry_violation base item e v.
Proof.
  unfold entry_violations, mapping_violations. split.
  - destruct e as [| | | | |labels];
      try (intros [<-|[]]; now constructor).
    rewrite in_flat_map. intros ([k x] & Hkx & Hv). simpl in Hv.
    rewrite dispatch_get in Hv. apply in_map_iff in Hv as (v' & <- & Hv').
    destruct (get k (declared_fields item)) as [[t validate|n m]|] eqn:Hf.
    + simpl in Hv'. apply In_leaf_violations in Hv'
        as [[Hc ->]|(x' & c & kind & Hc & Hin & Hk & ->)].
      * now apply EntryType with (x := x) (validate := validate).
      * apply In_validator_violations in Hk
          as [[Ha ->]|[(p & cleaned & target & Hr & Hb & Ht & Hz & ->)
                      |(p & cleaned & Hr & Hb & Ht & ->)]].
        -- now apply EntryRejected
             with (x := x) (t := t) (validate := validate) (x' := x').
        -- now apply EntryBound
             with (x := x) (t := t) (validate := validate) (x' := x')
                  (p := p) (cleaned := cleaned) (target := target).
        -- now apply EntryUnresolved
             with (x := x) (t := t) (validate := validate) (x' := x')
                  (c := c) (cleaned := cleaned).
    + now apply EntryNested with (x := x) (n := n) (m := m).
    + destruct Hv' as [<-|[]]. now apply EntryUnknown with (x := x).
  - intros H.
    destruct H as [e He | labels k x Hkx Hf
                  | labels k x t validate Hkx Hf Hc
                  | labels k x t validate x' c Hkx Hf Hc Hin Ha
                  | labels k x t validate x' c p cleaned target
                      Hkx Hf Hc Hin Hr Hb Ht Hz
                  | labels k x t validate x' c p cleaned
                      Hkx Hf Hc Hin Hr Hb Ht
                  | labels k x n m v Hkx Hf Hv].
    + destruct e; simpl in He; try contradiction; now left.
    + apply in_flat_map. exists (k, x). split; [exact Hkx|]. simpl.
      rewrite dispatch_get, Hf. now left.
    + apply in_flat_map. exists (k, x). split; [exact Hkx|]. simpl.
      rewrite dispatch_get, Hf.
      apply (in_map (under (Key k)) _ (Violation [] (InvalidType t))).
      apply In_leaf_violations. now left.
    + apply in_flat_map. exists (k, x). split; [exact Hkx|]. simpl.
      rewrite dispatch_get, Hf.
      apply (in_map (under (Key k)) _ (Violation [] (Rejected c))).
      apply In_leaf_violations. right. exists x', c, (Rejected c).
      repeat split; auto. apply In_validator_violations. now left.
    + apply in_flat_map. exists (k, x). split; [exact Hkx|]. simpl.
      rewrite dispatch_get, Hf.
      apply (in_map (under (Key k)) _ (Violation [] (Rejected c))).
      apply In_leaf_violations. right. exists x', c, (Rejected c).
      repeat split; auto. apply In_validator_violations. right. left.
      now exists p, cleaned, target.
    + apply in_flat_map. exists (k, x). split; [exact Hkx|]. simpl.
      rewrite dispatch_get, Hf.
      apply (in_map (under (Key k)) _
               (Violation [] (ContextResolutionError p))).
      apply In_leaf_violations. right.
      exists x', c, (ContextResolutionError p).
      repeat split; auto. apply In_validator_violations. right. right.
      now exists p, cleaned.
    + apply in_flat_map. exists (k, x). split; [exact Hkx|]. simpl.
      rewrite dispatch_get, Hf. now apply in_map.
Qed.

Lemma In_revision_violations vs d v :
  revision_shaped vs ->
  In v (violations (get "base_spec" (context vs))
          (Nested (OfInstance (schema_cls vs) (many vs)) false) [] (JDict d))
  <-> revision_violation vs d v.
Proof.
  intros [Hmany Hshape]. rewrite violations_instance, Hmany.
  unfold entry_violations at 1. unfold mapping_violations.
  rewrite in_flat_map. split.
  - intros ([k x] & Hkx & Hv). simpl in Hv. rewrite dispatch_get in Hv.
    apply in_map_iff in Hv as (v' & <- & Hv').
    destruct (get k (declared_fields (schema_cls vs))) as [f|] eqn:Hf.
    + destruct (Hshape k f Hf) as (item & ->).
      rewrite violations_instance in Hv'. unfold sequence_violations in Hv'.
      destruct x as [| | | |entries|];
        try (destruct Hv' as [<-|[]];
             eapply RevisionShape; [exact Hkx | exact Hf | exact I]).
      apply In_indexed in Hv' as (i & e & v0 & Hi & Hv0 & ->).
      apply In_entry_violations in Hv0.
      now apply RevisionEntry with (entries := entries) (item := item) (e := e).
    + destruct Hv' as [<-|[]]. now apply RevisionUnknown with (x := x).
  - intros H.
    destruct H as [k x Hkx Hf | k x item Hkx Hf Hx
                  | k entries item i e v Hkx Hf Hi Hv].
    + exists (k, x). split; [exact Hkx|]. simpl. rewrite dispatch_get, Hf.
      now left.
    + exists (k, x). split; [exact Hkx|]. simpl. rewrite dispatch_get, Hf.
      rewrite violations_instance.
      destruct x; simpl in Hx; try contradiction; now left.
    + exists (k, JList entries). split; [exact Hkx|]. simpl.
      rewrite dispatch_get, Hf, violations_instance. apply in_map.
      simpl. apply In_indexed. exists i, e, v.
      rewrite In_entry_violations. auto.
Qed.

End LoadFacts.

(** ** Revisions against the modelled schema *)

Section RevisionFacts.

Variable get_type : json -> result field.
Variable read_json : string -> result json.
Variable path_exists : string -> bool.
Variable json_loads : string -> result json.

Import DictFacts.

#[local] Abbreviation build := (build_schemas get_type Model.load).
#[local] Abbreviation revise :=
  (load_params read_json path_exists json_loads Model.load).
#[local] Abbreviation params_of_arg :=
  (params_of read_json path_exists json_loads).

Lemma built_validator_schema (w w1 : world) :
  build w = (Return tt, w1) ->
  exists vs items,
    validator_schema (self w1) = Some vs
    /\ base_spec (self w) = JDict items
    /\ revision_shaped vs
    /\ forall k,
         get k (declared_fields (schema_cls vs)) = None
         <-> ~ In k (keys items).
Proof.
  intros H.
  destruct (build_schemas_success _ _ _ _ H)
    as (items & pd & vd & cleaned & Hs & Hc & _ & _ & _).
  destruct (compiled_fragments _ _ _ _ _ H Hs)
    as (pd' & vd' & cleaned' & Hc' & _ & _ & Hvs & _ & Hvf).
  rewrite Hc in Hc'. injection Hc' as <- <-.
  eexists _, items. split; [exact Hvs|]. split; [exact Hs|].
  unfold revision_shaped, set_context, instantiate. cbn [many schema_cls].
  rewrite Hvf. split; [split; [reflexivity|]|].
  - intros k f. rewrite get_mapped.
    destruct (get k vd) as [item|]; [|discriminate].
    intros [= <-]. now exists item.
  - intros k. rewrite get_None, keys_mapped.
    destruct (compile_params_keys _ _ _ _ _ _ Hc k) as [_ [K1 K2]].
    split; intros Hn Hin; apply Hn; auto.
Qed.

Lemma revise_document (a : json) (d : dict json) (w : world) (vs : schema) :
  validator_schema (self w) = Some vs ->
  params_of_arg a = Return (JDict d) ->
  revise a w = validation Model.load vs (JDict d) w.
Proof.
  intros Hvs Ha. rewrite load_params_cases, Ha, Hvs. reflexivity.
Qed.

(** C4.  On a compiled builder, a revision document with a key that names
    no parameter of the baseline specification fails: [load_params] raises
    the aggregate, and the aggregate holds the [UnknownParameterError] of
    that very name. *)
Theorem unknown_parameter_rejected
    (w w1 : world) (items d : dict json) (a : json) (k : string) :
  build w = (Return tt, w1) ->
  base_spec (self w) = JDict items ->
  params_of_arg a = Return (JDict d) ->
  In k (keys d) ->
  ~ In k (keys items) ->
  exists errors,
    fst (revise a w1) = Raise (ValidationError errors)
    /\ In (UnknownParameterError k) errors.
Proof.
  intros H Hspec Ha Hkd Hk.
  destruct (built_validator_schema _ _ H)
    as (vs & items' & Hvs & Hs & Hshape & Hnone).
  rewrite Hspec in Hs. injection Hs as <-.
  rewrite (revise_document a d w1 vs Hvs Ha). unfold validation. simpl.
  assert (revision_violation vs d (UnknownParameterError k)) as Hv.
  { apply in_map_iff in Hkd as ([k' x] & <- & Hin).
    apply RevisionUnknown with (x := x); [exact Hin|]. now apply Hnone. }
  apply (LoadFacts.In_revision_violations vs d _ Hshape) in Hv.
  unfold Model.load.
  destruct (Load.violations _ _ _ (JDict d)) as [|v0 errors]; [destruct Hv|].
  now exists (v0 :: errors).
Qed.

(** C5.  On a compiled builder, loading a revision document runs the
    revision schema once and ends in one of two ways: the document is
    returned cleaned and violates nothing, or one aggregate
    [ValidationError] is raised whose list holds exactly the violations of
    the document: every unknown parameter, every value that is not a
    sequence, and, for every entry of every parameter, every unknown
    label, every ill-typed value, every label or value a declared bound
    or choice rejects, every one a sentinel bound rejects once resolved
    in the cleaned baseline the schema holds, and every reference that
    baseline cannot resolve. *)
Theorem revision_violations_batched
    (w w1 : world) (d : dict json) (a : json) :
  build w = (Return tt, w1) ->
  params_of_arg a = Return (JDict d) ->
  exists vs,
    validator_schema (self w1) = Some vs
    /\ revise a w1 = validation Model.load vs (JDict d) w1
    /\ ((exists cleaned,
            Model.load vs (JDict d) = Return cleaned
            /\ forall v, ~ revision_violation vs d v)
        \/ (exists errors,
               Model.load vs (JDict d) = Raise (ValidationError errors)
               /\ forall v, In v errors <-> revision_violation vs d v)).
Proof.
  intros H Ha.
  destruct (built_validator_schema _ _ H)
    as (vs & items & Hvs & _ & Hshape & _).
  exists vs. split; [exact Hvs|].
  split; [exact (revise_document a d w1 vs Hvs Ha)|].
  pose proof (LoadFacts.In_revision_violations vs d) as Hin.
  unfold Model.load.
  destruct (Load.violations _ _ _ (JDict d)) as [|v0 errors].
  - left. eexists. split; [reflexivity|]. intros v Hv.
    now apply (Hin v Hshape) in Hv.
  - right. exists (v0 :: errors). split; [reflexivity|].
    intros v. now apply Hin.
Qed.

End RevisionFacts.

(** ** The claims on sample documents *)

Module Samples.

Import Examples.

(** C1, counterexample.  The baseline load raises inside [build_schemas],
    and the builder, which had no [param_schema], has one afterwards. *)
Lemma failed_build_leaves_param_schema :
  let out := build (start out_of_range) in
  fst out
  = Raise (ValidationError
             [Violation [Key "A"; Key "value"; Index 0; Key "year"]
                (Rejected (Range (Some 2000%Z) (Some 2030%Z)))])
  /\ param_schema (self (start out_of_range)) = None
  /\ exists pd, param_schema (self (snd out))
                = Some (instantiate (ParamSchema pd)).
Proof.
  split; [vm_compute; reflexivity|]. split; [reflexivity|].
  eexists [(_, _)]. vm_compute. reflexivity.
Qed.

(** C1, witness: the failing build of the out-of-range baseline. *)
Lemma failed_build_witness :
  let w := start out_of_range in
  (exists e, build w = (Raise e, snd (build w)))
  /\ validator_schema (self (snd (build w))) = None.
Proof.
  assert (exists e, build (start out_of_range)
                    = (Raise e, snd (build (start out_of_range)))) as He
    by (eexists; vm_compute; reflexivity).
  split; [exact He|]. destruct He as [e He].
  destruct (failed_build_assigns_no_validator_schema
              Model.get_type Model.load _ _ e He) as [Hv _].
  rewrite Hv. reflexivity.
Defined.

(** X1, witness: the same build; what it raised came from the load. *)
Lemma build_schemas_raises_witness :
  let w := start out_of_range in
  (exists e, build w = (Raise e, snd (build w)))
  /\ items_of (base_spec (self w)) = Return [("A", JDict [("value", JList [entry 5 1900])])]
  /\ exists e ps,
       param_schema (self (snd (build w))) = Some ps
       /\ Model.load ps (base_spec (self w)) = Raise e.
Proof.
  assert (exists e, build (start out_of_range)
                    = (Raise e, snd (build (start out_of_range)))) as He
    by (eexists; vm_compute; reflexivity).
  split; [exact He|]. split; [reflexivity|]. destruct He as [e He].
  destruct (build_schemas_raises Model.get_type Model.load _ _ e He)
    as [H|[(items & k & v & Hs & Hin & Hv)|(ps & Hps & Hl)]].
  - discriminate H.
  - exfalso. injection Hs as <-.
    destruct Hin as [[= <- <-]|[]]. vm_compute in Hv. discriminate Hv.
  - exists e, ps. split; assumption.
Defined.

(** C2, counterexample.  A baseline that declares [p] as a scalar is
    compiled to the same sequence wrapper as any other, and the compiled
    baseline schema rejects the scalar, in either shape. *)
Lemma scalar_parameter_not_accepted :
  let out := build (start scalar_value) in
  fst out
  = Raise (ValidationError [Violation [Key "p"; Key "value"] NotASequence])
  /\ fst (build (start scalar_param))
     = Raise (ValidationError [Violation [Key "p"] NotAMapping])
  /\ exists ps individual item,
       param_schema (self (snd out)) = Some ps
       /\ get "p" (declared_fields (schema_cls ps))
          = Some (Nested (OfClass individual) false)
       /\ get "value" (declared_fields individual)
          = Some (Nested (OfClass item) true).
Proof.
  split; [vm_compute; reflexivity|]. split; [vm_compute; reflexivity|].
  eexists _, _, _. vm_compute. repeat split.
Qed.

(** C2, witness: parameter [A] of the two-parameter baseline. *)
Lemma value_entries_witness :
  let w := start baseline in
  build w = (Return tt, snd (build w))
  /\ base_spec (self w) = JDict parameters
  /\ In "A" (keys parameters)
  /\ exists vs item,
       validator_schema (self (snd (build w))) = Some vs
       /\ get "A" (declared_fields (schema_cls vs))
          = Some (Nested (OfInstance item true) false).
Proof.
  assert (build (start baseline) = (Return tt, snd (build (start baseline))))
    as H by (vm_compute; reflexivity).
  split; [exact H|]. split; [reflexivity|]. split; [now left|].
  destruct (value_entries_always_a_sequence Model.get_type Model.load
              _ _ parameters "A" H eq_refl (or_introl eq_refl))
    as (ps & vs & item & _ & Hvs & _ & _ & Hk).
  exists vs, item. split; assumption.
Defined.



(** C4, witness: the revision names [C], the baseline does not. *)
Lemma unknown_parameter_witness :
  let w := start baseline in
  build w = (Return tt, snd (build w))
  /\ base_spec (self w) = JDict parameters
  /\ params_of_arg (JDict bad_revision) = Return (JDict bad_revision)
  /\ In "C" (keys bad_revision)
  /\ ~ In "C" (keys parameters)
  /\ exists errors,
       fst (revise (JDict bad_revision) (snd (build w)))
       = Raise (ValidationError errors)
       /\ In (UnknownParameterError "C") errors.
Proof.
  assert (build (start baseline) = (Return tt, snd (build (start baseline))))
    as H by (vm_compute; reflexivity).
  assert (~ In "C" (keys parameters)) as Hn
    by (intros [E|[E|[]]]; discriminate E).
  split; [exact H|]. split; [reflexivity|]. split; [reflexivity|].
  split; [right; now left|]. split; [exact Hn|].
  exact (unknown_parameter_rejected Model.get_type (Model.read_json fs)
           (Model.path_exists fs) Model.json_loads _ _ parameters bad_revision
           (JDict bad_revision) "C" H eq_refl eq_refl
           (or_intror (or_introl eq_refl)) Hn).
Defined.

(** The cross-reference sample of section 8: with [A] at 5 for 2020, a
    revision of [B] to 10 for 2020 fails with a range violation at [B], a
    revision to 4 loads, a revision for a year [A] has no value for
    cannot be resolved, and a revision for no year in particular is held
    against the value of [A] for 2020. *)
Lemma cross_reference_sample :
  let w1 := snd (build_with_rule (World (fresh rule_bps dims bounded) [])) in
  fst (build_with_rule (World (fresh rule_bps dims bounded) [])) = Return tt
  /\ fst (revise (JDict too_high) w1)
     = Raise (ValidationError
                [Violation [Key "B"; Index 0; Key "value"]
                   (Rejected (AtMost "A"))])
  /\ fst (revise (JDict low_enough) w1) = Return (JDict low_enough)
  /\ fst (revise (JDict other_year) w1)
     = Raise (ValidationError
                [Violation [Key "B"; Index 0; Key "value"]
                   (ContextResolutionError "A")])
  /\ fst (revise (JDict any_year) w1)
     = Raise (ValidationError
                [Violation [Key "B"; Index 0; Key "value"]
                   (Rejected (AtMost "A"))]).
Proof. repeat split; vm_compute; reflexivity. Qed.

(** C5, witness: five violations in two parameters, two of them against
    the cleaned baseline, in one aggregate. *)
Lemma batched_witness :
  let w := World (fresh rule_bps dims bounded) [] in
  let w1 := snd (build_with_rule w) in
  build_with_rule w = (Return tt, w1)
  /\ params_of_arg (JDict mixed_revision) = Return (JDict mixed_revision)
  /\ fst (revise (JDict mixed_revision) w1)
     = Raise (ValidationError
                [Violation [Key "B"; Index 0; Key "value"]
                   (Rejected (AtMost "A"));
                 Violation [Key "B"; Index 1; Key "value"]
                   (ContextResolutionError "A");
                 Violation [Key "B"; Index 2; Key "value"]
                   (InvalidType Numeric);
                 Violation [Key "B"; Index 2; Key "year"]
                   (Rejected (Range (Some 2000%Z) (Some 2030%Z)));
                 UnknownParameterError "C"])
  /\ exists vs,
       validator_schema (self w1) = Some vs
       /\ revise (JDict mixed_revision) w1
          = validation Model.load vs (JDict mixed_revision) w1
       /\ revision_violation vs mixed_revision
            (Violation [Key "B"; Index 0; Key "value"]
               (Rejected (AtMost "A"))).
Proof.
  assert (build_with_rule (World (fresh rule_bps dims bounded) [])
          = (Return tt,
             snd (build_with_rule (World (fresh rule_bps dims bounded) []))))
    as H by (vm_compute; reflexivity).
  split; [exact H|]. split; [reflexivity|].
  split; [vm_compute; reflexivity|].
  destruct (revision_violations_batched get_type_with_rule
              (Model.read_json fs) (Model.path_exists fs) Model.json_loads
              _ _ mixed_revision (JDict mixed_revision) H eq_refl)
    as (vs & Hvs & Hr & Hall).
  exists vs. split; [exact Hvs|]. split; [exact Hr|].
  destruct Hall as [(cleaned & Hl & _)|(errors & Hl & Hin)].
  - exfalso. injection Hvs as <-. vm_compute in Hl. discriminate Hl.
  - apply Hin. injection Hvs as <-. vm_compute in Hl.
    injection Hl as <-. now left.
Defined.

(** C6, witness: parameter [B] of the two-parameter baseline. *)
Lemma one_fragment_witness :
  let w := start baseline in
  build w = (Return tt, snd (build w))
  /\ base_spec (self w) = JDict parameters
  /\ exists ps vs,
       param_schema (self (snd (build w))) = Some ps
       /\ validator_schema (self (snd (build w))) = Some vs
       /\ count "B" (declared_fields (schema_cls ps)) = 1%nat
       /\ count "B" (declared_fields (schema_cls vs)) = 1%nat.
Proof.
  assert (build (start baseline) = (Return tt, snd (build (start baseline))))
    as H by (vm_compute; reflexivity).
  split; [exact H|]. split; [reflexivity|].
  destruct (one_fragment_per_parameter Model.get_type Model.load _ _
              parameters H eq_refl)
    as (ps & vs & Hps & Hvs & Hk).
  exists ps, vs. split; [exact Hps|]. split; [exact Hvs|].
  apply (Hk "B"). right. now left.
Defined.

(** C7, counterexample.  With a dimension named [value], the compiled
    validator of [A] holds one field only, the dimension's numeric
    validator, although the baseline value of [A] resolves to a text. *)
Lemma value_dimension_replaces_type :
  let out := build (World (fresh bps value_dims text_baseline) []) in
  fst out = Return tt
  /\ Model.get_type text_value = Return (Typed Text [])
  /\ exists vs item,
       validator_schema (self (snd out)) = Some vs
       /\ get "A" (declared_fields (schema_cls vs))
          = Some (Nested (OfInstance item true) false)
       /\ declared_fields item = [("value", Typed Numeric [])].
Proof.
  split; [vm_compute; reflexivity|]. split; [reflexivity|].
  eexists _, _. vm_compute. repeat split.
Qed.

(** C7, witness: the one dimension is named [year]. *)
Lemma validator_fields_witness :
  let w := start baseline in
  build w = (Return tt, snd (build w))
  /\ base_spec (self w) = JDict parameters
  /\ wf (dim_validators (self w)) = true
  /\ mem "value" (dim_validators (self w)) = false
  /\ In "A" (keys parameters)
  /\ exists vs item fieldtype,
       validator_schema (self (snd (build w))) = Some vs
       /\ get "A" (declared_fields (schema_cls vs))
          = Some (Nested (OfInstance item true) false)
       /\ declared_fields item = ("value", fieldtype) :: dims.
Proof.
  assert (build (start baseline) = (Return tt, snd (build (start baseline))))
    as H by (vm_compute; reflexivity).
  split; [exact H|]. split; [reflexivity|]. split; [reflexivity|].
  split; [reflexivity|]. split; [now left|].
  destruct (value_entry_validator_fields Model.get_type Model.load _ _
              parameters "A" H eq_refl eq_refl eq_refl (or_introl eq_refl))
    as (ps & vs & item & v & ft & _ & Hvs & _ & Hk & _ & _ & Hf).
  exists vs, item, ft. repeat split; assumption.
Defined.

(** C9, witness: after the first build, a second build, a revision and
    a third build. *)
Lemma baseline_load_repeats_witness :
  let w := start baseline in
  let w1 := snd (build w) in
  let w2 :=
    run Model.get_type (Model.read_json fs) (Model.path_exists fs)
      Model.json_loads Model.load
      [BuildSchemas; LoadParams (JDict revision); BuildSchemas] w1 in
  build w = (Return tt, w1)
  /\ self w2 = self w1
  /\ List.length (history w2) = 7%nat
  /\ exists ps cleaned,
       Model.load ps baseline = Return cleaned
       /\ history w1
          = [ContextBind "base_spec" cleaned;
             BaselineLoad ps baseline (Return cleaned)].
Proof.
  assert (build (start baseline) = (Return tt, snd (build (start baseline))))
    as H by (vm_compute; reflexivity).
  split; [exact H|].
  destruct (baseline_load_repeats Model.get_type (Model.read_json fs)
              (Model.path_exists fs) Model.json_loads Model.load _ _
              [BuildSchemas; LoadParams (JDict revision); BuildSchemas] H)
    as (ps & cleaned & Hl & Hh & Hs & _).
  split; [exact Hs|]. split; [vm_compute; reflexivity|].
  exists ps, cleaned. split; [exact Hl | exact Hh].
Defined.

(** C10, witness: a file, a text, a dict and a number. *)
Lemma load_params_dispatch_witness :
  let w := snd (build (start baseline)) in
  (exists vs, validator_schema (self w) = Some vs)
  /\ fst (revise (JStr "revision.json") w) = Return (JDict revision)
  /\ fst (revise (JStr "{}") w) = Return (JDict [])
  /\ fst (revise (JDict revision) w) = Return (JDict revision)
  /\ revise (JNum 3) w
     = (Raise (ValueError "params_or_path is not dict or file path"), w).
Proof.
  assert (exists vs, validator_schema (self (snd (build (start baseline))))
                     = Some vs) as Hvs by (eexists; vm_compute; reflexivity).
  split; [exact Hvs|]. destruct Hvs as [vs Hvs].
  destruct (load_params_dispatch (Model.read_json fs) (Model.path_exists fs)
              Model.json_loads Model.load _ vs Hvs)
    as (Hfile & Htext & Hdict & Hother).
  split; [|split; [|split]].
  - unfold revise. rewrite (Hfile "revision.json" eq_refl).
    injection Hvs as <-. vm_compute. reflexivity.
  - unfold revise. rewrite (Htext "{}" eq_refl).
    injection Hvs as <-. vm_compute. reflexivity.
  - unfold revise. rewrite Hdict.
    injection Hvs as <-. vm_compute. reflexivity.
  - exact (Hother (JNum 3) _ eq_refl eq_refl).
Defined.

End Samples.

(** * More of the builder *)

(** ** Merged dictionaries *)

Module MergeFacts.

Import DictFacts.

Section WithValues.
Context {V : Type}.
Implicit Types (d : dict V) (k : string) (v : V).

Lemma keys_app d1 d2 : keys (d1 ++ d2) = keys d1 ++ keys d2.
Proof. unfold keys. apply map_app. Qed.

Lemma NoDup_keys_update d1 d2 :
  NoDup (keys d1) -> NoDup (keys (update d1 d2)).
Proof.
  unfold update. revert d1.
  induction d2 as [|[k v] d2 IH]; simpl; intros d1 H; [exact H|].
  apply IH. now apply NoDup_set.
Qed.

(** In [{**d1, **d2}] an item of [d2] wins over one of [d1]. *)
Lemma get_update k d1 d2 :
  NoDup (keys d2) ->
  get k (update d1 d2)
  = match get k d2 with Some v => Some v | None => get k d1 end.
Proof.
  unfold update. revert d1.
  induction d2 as [|[k0 v0] d2 IH]; simpl; intros d1 Hd; [reflexivity|].
  inversion Hd as [|? ? Hnot Hd2]; subst. rewrite (IH _ Hd2).
  destruct (String.eqb_spec k k0) as [->|Hk].
  - apply get_None in Hnot. rewrite Hnot. apply get_set_eq.
  - rewrite get_set_neq by exact Hk. reflexivity.
Qed.

End WithValues.

End MergeFacts.

Section MoreBuilderFacts.

Variable get_type : json -> result field.
Variable read_json : string -> result json.
Variable get_param_schema :
  json -> dict field -> result (schema_class * dict field).
Variable path_exists : string -> bool.
Variable json_loads : string -> result json.
Variable load : schema -> json -> result json.

Import DictFacts MergeFacts.

#[local] Abbreviation compile := (compile_params get_type).
#[local] Abbreviation build := (build_schemas get_type load).
#[local] Abbreviation revise :=
  (load_params read_json path_exists json_loads load).

(** *** Before the first build *)

Lemma load_params_unbuilt (a : json) (w : world) :
  validator_schema (self w) = None ->
  exists e,
    revise a w = (Raise e, w)
    /\ (isinstance_dict a = true -> e = AttributeError "validator_schema").
Proof.
  intros Hv. rewrite load_params_cases, Hv.
  destruct (params_of _ _ _ a) as [e|params] eqn:Hp.
  - exists e. split; [reflexivity|]. intros Hd.
    destruct a; simpl in Hd, Hp; discriminate.
  - eexists. split; reflexivity.
Qed.

(** X4.  On the builder [__init__] returns, [load_params] validates
    nothing until [build_schemas] has run: every call raises and leaves
    the builder and its history as they were; for a dict argument what it
    raises is the [AttributeError] of the missing [validator_schema]. *)
Theorem load_params_after_init
    (schema_def_path base_spec_path : string) (field_map : dict field)
    (b : SchemaBuilder) (a : json) (h : list event) :
  init read_json get_param_schema schema_def_path base_spec_path field_map
    = Return b ->
  exists e,
    revise a (World b h) = (Raise e, World b h)
    /\ (isinstance_dict a = true -> e = AttributeError "validator_schema").
Proof.
  intros Hi.
  destruct (init_fresh _ _ _ _ _ _ Hi) as (sd & bps & dims & spec & _ & _ & _ & ->).
  apply load_params_unbuilt. reflexivity.
Qed.

(** *** Order of the fragments *)

Lemma compile_params_appends bps dims items :
  forall pd vd pd' vd',
    NoDup (keys items) ->
    (forall k, In k (keys items) -> ~ In k (keys pd) /\ ~ In k (keys vd)) ->
    compile bps dims items pd vd = Return (pd', vd') ->
    keys pd' = keys pd ++ keys items /\ keys vd' = keys vd ++ keys items.
Proof.
  induction items as [|[k0 v0] rest IH]; simpl; intros pd vd pd' vd' Hd Hnew H.
  - injection H as <- <-. now rewrite !app_nil_r.
  - inversion Hd as [|? ? Hnot Hrest]; subst.
    destruct (get_type v0) as [e|ft]; simpl in H; [discriminate|].
    unfold getitem in H. rewrite get_set_eq in H. simpl in H.
    destruct (Hnew k0 (or_introl eq_refl)) as [Hp Hv].
    rewrite (set_fresh _ _ vd Hv), (set_fresh _ _ pd Hp) in H.
    apply IH in H; [|exact Hrest|].
    + rewrite !keys_app in H. simpl in H. rewrite <- !app_assoc in H.
      exact H.
    + intros k Hk. rewrite !keys_app. simpl.
      destruct (Hnew k (or_intror Hk)) as [Hkp Hkv].
      split; intros Hin; apply in_app_or in Hin as [Hin|[<-|[]]];
        contradiction.
Qed.

(** X5.  The compiled schemas list their fragments in the order of the
    baseline's parameters: after [build_schemas] returns, the field names
    of the baseline schema and of the revision schema are the keys of
    [base_spec], in its order. *)
Theorem fragments_in_baseline_order (w w1 : world) (items : dict json) :
  build w = (Return tt, w1) ->
  base_spec (self w) = JDict items ->
  wf items = true ->
  exists ps vs,
    param_schema (self w1) = Some ps
    /\ validator_schema (self w1) = Some vs
    /\ keys (declared_fields (schema_cls ps)) = keys items
    /\ keys (declared_fields (schema_cls vs)) = keys items.
Proof.
  intros H Hspec Hwf.
  destruct (compiled_fragments _ _ _ _ _ H Hspec)
    as (pd & vd & cleaned & Hc & _ & Hps & Hvs & Hpf & Hvf).
  apply unique_NoDup in Hwf.
  assert (forall k, In k (keys items) ->
            ~ In k (keys (@nil (string * schema_class)))
            /\ ~ In k (keys (@nil (string * schema_class)))) as Hnew
    by (intros k _; split; intros []).
  destruct (compile_params_appends _ _ _ _ _ _ _ Hwf Hnew Hc) as [Kp Kv].
  eexists _, _. split; [exact Hps|]. split; [exact Hvs|].
  unfold set_context, instantiate. cbn [schema_cls].
  rewrite Hpf, Hvf, !keys_mapped. split; assumption.
Qed.

(** *** The first parameter that has no type *)

Lemma compile_params_first_failure bps dims k v e post :
  forall pre pd vd,
    (forall kv, In kv pre -> exists ft, get_type (snd kv) = Return ft) ->
    get_type v = Raise e ->
    compile bps dims (pre ++ (k, v) :: post) pd vd = Raise e.
Proof.
  induction pre as [|[k0 v0] pre IH]; simpl; intros pd vd Hpre Hv.
  - rewrite Hv. reflexivity.
  - destruct (Hpre (k0, v0) (or_introl eq_refl)) as [ft Hft]. simpl in Hft.
    rewrite Hft. simpl. unfold getitem. rewrite get_set_eq. simpl.
    apply IH; [|exact Hv]. intros kv Hin. apply Hpre. now right.
Qed.

(** X6.  [build_schemas] raises what [get_type] raised for the first
    parameter, in the order of the baseline, whose value it cannot type,
    whatever the parameters after it hold; the builder and its history
    are left as they were, so no schema is assigned and nothing is
    loaded. *)
Theorem build_stops_at_first_untyped_parameter
    (w : world) (pre post : dict json) (k : string) (v : json) (e : exn) :
  base_spec (self w) = JDict (pre ++ (k, v) :: post) ->
  (forall kv, In kv pre -> exists ft, get_type (snd kv) = Return ft) ->
  get_type v = Raise e ->
  build w = (Raise e, w).
Proof.
  intros Hspec Hpre Hv. pose proof (build_schemas_cases get_type load w) as C.
  simpl in C. rewrite Hspec in C. simpl in C.
  rewrite (compile_params_first_failure _ _ k v e post pre [] [] Hpre Hv) in C.
  exact C.
Qed.

(** *** What a builder can hold *)

(** The states of a builder made with [bps], [dims] and [spec]. *)
Definition consistent (bps : schema_class) (dims : dict field) (spec : json)
    (b : SchemaBuilder) : Prop :=
  BaseParamSchema b = bps
  /\ dim_validators b = dims
  /\ base_spec b = spec
  /\ ((param_schema b = None /\ validator_schema b = None)
      \/ exists items pd vd,
           spec = JDict items
           /\ compile bps dims items [] [] = Return (pd, vd)
           /\ param_schema b = Some (instantiate (ParamSchema pd))
           /\ ((validator_schema b = None
                /\ exists e, load (instantiate (ParamSchema pd)) spec = Raise e)
               \/ exists cleaned,
                    load (instantiate (ParamSchema pd)) spec = Return cleaned
                    /\ validator_schema b
                       = Some (set_context "base_spec" cleaned
                                 (instantiate (ValidatorSchema vd))))).

Lemma consistent_build bps dims spec w :
  consistent bps dims spec (self w) ->
  consistent bps dims spec (self (snd (build w))).
Proof.
  intros (Hb & Hd & Hs & Hst).
  pose proof (build_schemas_cases get_type load w) as C. simpl in C.
  rewrite Hb, Hd, Hs in C.
  destruct (items_of spec) as [e|items] eqn:Hitems.
  { rewrite C. simpl. repeat split; assumption. }
  destruct (compile bps dims items [] []) as [e|[pd vd]] eqn:Hc.
  { rewrite C. simpl. repeat split; assumption. }
  assert (spec = JDict items) as Hspec
    by (destruct spec; try discriminate; now injection Hitems as ->).
  simpl in C. destruct (load _ spec) as [e|cleaned] eqn:Hl; rewrite C; simpl.
  - split; [exact Hb|]. split; [exact Hd|]. split; [exact Hs|]. right.
    exists items, pd, vd. split; [exact Hspec|]. split; [exact Hc|].
    split; [reflexivity|].
    destruct Hst as [[_ Hv]|(items' & pd' & vd' & Hs' & Hc' & _ & Hst)].
    + left. split; [exact Hv|]. now exists e.
    + rewrite Hs' in Hspec. injection Hspec as ->.
      rewrite Hc in Hc'. injection Hc' as <- <-.
      destruct Hst as [[Hv _]|(cleaned & Hl' & _)].
      * left. split; [exact Hv|]. now exists e.
      * rewrite Hl in Hl'. discriminate Hl'.
  - split; [exact Hb|]. split; [exact Hd|]. split; [exact Hs|]. right.
    exists items, pd, vd. split; [exact Hspec|]. split; [exact Hc|].
    split; [reflexivity|]. right. exists cleaned. split; [exact Hl|].
    reflexivity.
Qed.

Lemma consistent_revise bps dims spec a w :
  consistent bps dims spec (self w) ->
  consistent bps dims spec (self (snd (revise a w))).
Proof.
  intros H. rewrite load_params_cases.
  destruct (params_of _ _ _ a) as [e|params]; [exact H|].
  destruct (validator_schema (self w)); exact H.
Qed.

(** X7.  In every execution of a new builder the three inputs never
    change, and the builder holds one of three things: no schema; a
    baseline schema compiled from [base_spec] whose load of [base_spec]
    raises, and no revision schema; or that baseline schema together with
    the revision schema compiled in the same pass, whose context holds
    under [base_spec] exactly what the baseline schema's load of
    [base_spec] returns.  A revision schema is never held without its
    baseline schema. *)
Theorem builder_always_consistent
    (bps : schema_class) (dims : dict field) (spec : json)
    (calls : list call) :
  consistent bps dims spec
    (self (run get_type read_json path_exists json_loads load calls
             (World (fresh bps dims spec) []))).
Proof.
  assert (forall w, consistent bps dims spec (self w) ->
            consistent bps dims spec
              (self (run get_type read_json path_exists json_loads load
                       calls w))) as G.
  { induction calls as [|c calls IH]; intros w Hw; [exact Hw|].
    simpl. apply IH. destruct c; simpl.
    - now apply consistent_build.
    - now apply consistent_revise. }
  apply G. simpl. repeat split. now left.
Qed.

(** *** Calls do not interfere *)

Lemma build_reads_self_only (w w' : world) :
  self w = self w' ->
  fst (build w) = fst (build w')
  /\ self (snd (build w)) = self (snd (build w')).
Proof.
  intros Hs.
  pose proof (build_schemas_cases get_type load w) as C.
  pose proof (build_schemas_cases get_type load w') as C'.
  simpl in C, C'. rewrite <- Hs in C'.
  destruct (items_of (base_spec (self w))) as [e|items];
    [rewrite C, C'; auto|].
  destruct (compile _ _ items [] []) as [e|dicts]; [rewrite C, C'; auto|].
  simpl in C, C'. destruct (load _ _) as [e|cleaned]; rewrite C, C'; auto.
Qed.

(** X8.  A [load_params] call, whatever its argument and outcome, changes
    the outcome of no later call: the next [load_params] returns or raises
    what it would have without it, and so does the next [build_schemas],
    which also leaves the same builder. *)
Theorem load_params_does_not_interfere (a a' : json) (w : world) :
  fst (revise a (snd (revise a' w))) = fst (revise a w)
  /\ fst (build (snd (revise a' w))) = fst (build w)
  /\ self (snd (build (snd (revise a' w)))) = self (snd (build w)).
Proof.
  assert (self (snd (revise a' w)) = self w) as Hs.
  { rewrite load_params_cases.
    destruct (params_of _ _ _ a') as [e|params]; [reflexivity|].
    destruct (validator_schema (self w)); reflexivity. }
  split.
  - rewrite !(load_params_cases _ _ _ _ a), Hs.
    destruct (params_of _ _ _ a) as [e|params]; [reflexivity|].
    destruct (validator_schema (self w)); reflexivity.
  - now apply build_reads_self_only.
Qed.

(** *** Fields of the per-parameter classes *)

(** X9.  The baseline fragment of every parameter keeps the fields of
    [BaseParamSchema]: the class it wraps declares [value] and the names
    [BaseParamSchema] declares, no other, and every name but [value] has
    the field [BaseParamSchema] gives it. *)
Theorem individual_schema_keeps_base_fields
    (w w1 : world) (items : dict json) (k : string) :
  build w = (Return tt, w1) ->
  base_spec (self w) = JDict items ->
  In k (keys items) ->
  exists ps individual,
    let base := declared_fields (BaseParamSchema (self w)) in
    param_schema (self w1) = Some ps
    /\ get k (declared_fields (schema_cls ps))
       = Some (Nested (OfClass individual) false)
    /\ (forall name,
          In name (keys (declared_fields individual))
          <-> name = "value" \/ In name (keys base))
    /\ (forall name,
          name <> "value" ->
          get name (declared_fields individual) = get name base).
Proof.
  intros H Hspec Hk.
  destruct (compiled_fragments _ _ _ _ _ H Hspec)
    as (pd & vd & cleaned & Hc & _ & Hps & _ & Hpf & _).
  destruct (compile_params_pairs _ _ _ _ _ _ _ _ Hc k) as [Hin _].
  destruct (Hin Hk) as (v & ft & _ & _ & _ & Hpd).
  eexists _, _. simpl. split; [exact Hps|].
  unfold instantiate. cbn [schema_cls].
  rewrite Hpf, get_mapped, Hpd. split; [reflexivity|].
  unfold IndividualParamSchema, type_, update.
  cbn [declared_fields fold_left fst snd]. split.
  - intros name. apply keys_set.
  - intros name Hn. now apply get_set_neq.
Qed.

(** X10.  In the value-entry validator of every parameter each dimension
    validator sits under its own name, one named [value] included; the
    type resolved from the parameter's baseline value is the [value]
    field only when no dimension has that name; no other name has a
    field. *)
Theorem dimension_validators_take_precedence
    (w w1 : world) (items : dict json) (k : string) :
  build w = (Return tt, w1) ->
  base_spec (self w) = JDict items ->
  wf (dim_validators (self w)) = true ->
  In k (keys items) ->
  exists vs item v fieldtype,
    validator_schema (self w1) = Some vs
    /\ get k (declared_fields (schema_cls vs))
       = Some (Nested (OfInstance item true) false)
    /\ In (k, v) items
    /\ get_type v = Return fieldtype
    /\ forall name,
         get name (declared_fields item)
         = match get name (dim_validators (self w)) with
           | Some f => Some f
           | None => if String.eqb name "value" then Some fieldtype else None
           end.
Proof.
  intros H Hspec Hwf Hk.
  destruct (compiled_fragments _ _ _ _ _ H Hspec)
    as (pd & vd & cleaned & Hc & _ & _ & Hvs & _ & Hvf).
  destruct (compile_params_pairs _ _ _ _ _ _ _ _ Hc k) as [Hin _].
  destruct (Hin Hk) as (v & ft & Hv & Hft & Hvd & _).
  eexists _, (ValidatorItem (dim_validators (self w)) ft), v, ft.
  split; [exact Hvs|]. unfold set_context, instantiate. cbn [schema_cls].
  rewrite Hvf, get_mapped, Hvd. repeat split; auto.
  intros name. apply unique_NoDup in Hwf.
  unfold ValidatorItem, type_. cbn [declared_fields EmptySchema].
  rewrite update_nil
    by (apply NoDup_keys_update; simpl; constructor;
        [intros [] | constructor]).
  rewrite (get_update name [("value", ft)] _ Hwf). reflexivity.
Qed.

End MoreBuilderFacts.

(** ** More sample runs *)

Module MoreSamples.

Import Examples.

(** Modelled from the spec: [schema.get_param_schema] builds the base
    parameter schema and the dimension validators from the schema
    definition (section 4.2).  This stand-in answers every schema
    definition with the sample base schema and the sample dimensions. *)
Definition get_param_schema (schema_def : json) (field_map : dict field)
    : result (schema_class * dict field) :=
  Return (bps, dims).

Definition files : dict (result json) :=
  [("schema.json", Return (JDict [])); ("baseline.json", Return baseline)].

(** A baseline whose second parameter has no value to type. *)
Definition untyped_second : dict json :=
  [("A", JDict [("value", JList [entry 5 2020])]);
   ("N", JNull);
   ("E", JList [])].

(** X4, witness: a dict revision on the builder [__init__] made from the
    two sample files. *)
Lemma load_params_after_init_witness :
  let b := fresh bps dims baseline in
  init (Model.read_json files) get_param_schema "schema.json" "baseline.json"
    [] = Return b
  /\ load_params (Model.read_json files) (Model.path_exists files)
       Model.json_loads Model.load (JDict revision) (World b [])
     = (Raise (AttributeError "validator_schema"), World b []).
Proof.
  assert (init (Model.read_json files) get_param_schema "schema.json"
            "baseline.json" [] = Return (fresh bps dims baseline)) as Hi
    by reflexivity.
  split; [exact Hi|].
  destruct (load_params_after_init (Model.read_json files) get_param_schema
              (Model.path_exists files) Model.json_loads Model.load
              _ _ _ _ (JDict revision) [] Hi) as (e & Hr & He).
  rewrite Hr, (He eq_refl). reflexivity.
Defined.

(** X5, witness: the two-parameter baseline, [A] before [B]. *)
Lemma fragments_in_baseline_order_witness :
  let w := start baseline in
  build w = (Return tt, snd (build w))
  /\ base_spec (self w) = JDict parameters
  /\ wf parameters = true
  /\ exists vs,
       validator_schema (self (snd (build w))) = Some vs
       /\ keys (declared_fields (schema_cls vs)) = ["A"; "B"].
Proof.
  assert (build (start baseline) = (Return tt, snd (build (start baseline))))
    as H by (vm_compute; reflexivity).
  split; [exact H|]. split; [reflexivity|]. split; [reflexivity|].
  destruct (fragments_in_baseline_order Model.get_type Model.load _ _
              parameters H eq_refl eq_refl)
    as (ps & vs & _ & Hvs & _ & Hk).
  exists vs. split; assumption.
Defined.

(** X6, witness: [N] is the first parameter without a type; [E], which
    has none either, comes later. *)
Lemma build_stops_witness :
  let w := start (JDict untyped_second) in
  base_spec (self w)
  = JDict ([("A", JDict [("value", JList [entry 5 2020])])]
           ++ ("N", JNull) :: [("E", JList [])])
  /\ Model.get_type (JDict [("value", JList [entry 5 2020])])
     = Return (Typed Numeric [])
  /\ Model.get_type JNull
     = Raise (TypeResolutionError "empty or ambiguous shape")
  /\ build w = (Raise (TypeResolutionError "empty or ambiguous shape"), w).
Proof.
  split; [reflexivity|]. split; [reflexivity|]. split; [reflexivity|].
  apply (build_stops_at_first_untyped_parameter Model.get_type Model.load
           (start (JDict untyped_second))
           [("A", JDict [("value", JList [entry 5 2020])])]
           [("E", JList [])] "N" JNull _ eq_refl).
  - intros kv [<-|[]]. now exists (Typed Numeric []).
  - reflexivity.
Defined.

(** X9, witness: parameter [B]; the base schema declares [title]. *)
Lemma individual_schema_witness :
  let w := start baseline in
  build w = (Return tt, snd (build w))
  /\ base_spec (self w) = JDict parameters
  /\ In "B" (keys parameters)
  /\ exists ps individual,
       param_schema (self (snd (build w))) = Some ps
       /\ get "B" (declared_fields (schema_cls ps))
          = Some (Nested (OfClass individual) false)
       /\ get "title" (declared_fields individual) = Some (Typed Text []).
Proof.
  assert (build (start baseline) = (Return tt, snd (build (start baseline))))
    as H by (vm_compute; reflexivity).
  split; [exact H|]. split; [reflexivity|]. split; [right; now left|].
  destruct (individual_schema_keeps_base_fields Model.get_type Model.load
              _ _ parameters "B" H eq_refl (or_intror (or_introl eq_refl)))
    as (ps & individual & Hps & Hk & _ & Hget).
  exists ps, individual. split; [exact Hps|]. split; [exact Hk|].
  rewrite (Hget "title") by discriminate. reflexivity.
Defined.

(** X10, witness: the one dimension is named [value] and wins over the
    text type of the baseline value. *)
Lemma dimension_precedence_witness :
  let w := World (fresh bps value_dims text_baseline) [] in
  build w = (Return tt, snd (build w))
  /\ base_spec (self w) = text_baseline
  /\ wf (dim_validators (self w)) = true
  /\ In "A" (keys [("A", JDict [("value", JList [JDict [("value", text_value)]])])])
  /\ exists vs item,
       validator_schema (self (snd (build w))) = Some vs
       /\ get "A" (declared_fields (schema_cls vs))
          = Some (Nested (OfInstance item true) false)
       /\ get "value" (declared_fields item) = Some (Typed Numeric [])
       /\ get "year" (declared_fields item) = None.
Proof.
  assert (build (World (fresh bps value_dims text_baseline) [])
          = (Return tt,
             snd (build (World (fresh bps value_dims text_baseline) []))))
    as H by (vm_compute; reflexivity).
  split; [exact H|]. split; [reflexivity|]. split; [reflexivity|].
  split; [now left|].
  destruct (dimension_validators_take_precedence Model.get_type Model.load
              _ _ _ "A" H eq_refl eq_refl (or_introl eq_refl))
    as (vs & item & v & ft & Hvs & Hk & _ & _ & Hget).
  exists vs, item. split; [exact Hvs|]. split; [exact Hk|].
  rewrite (Hget "value"), (Hget "year"). split; reflexivity.
Defined.

End MoreSamples.
